(** * MCP Directory Analyzer Server: the request handlers of [main_end.py]

    A shallow embedding of the three tool handlers ([list_directory],
    [read_document_chunk], [save_summary_to_db]) together with the parts of
    the Python runtime they call: slicing, [str.lower], the POSIX flavour of
    [pathlib], and the [summaries] table with its primary key.

    Conventions.
    - Python [int] is [Z].
    - The decoded text of a document is a list of code points ([text]), so
      that [len] and slicing count characters as Python does.  Paths, names
      and messages are [string]s; nothing below measures their length in
      characters, and the bytes of a multi-byte character never collide with
      the ASCII characters that are inspected ([/], [.], letters).
    - The file system is what the operating system answers for each path:
      the outcome of [os.stat], of [os.listdir] and of [read_text], errors
      included, so that the exceptions [pathlib] lets through are those of
      the handlers.
    - A handler is a computation over the [World] (file system view and
      table) that returns a value or raises. *)

From Stdlib Require Import ZArith List String Ascii Bool Lia Permutation.
Import ListNotations.
Local Open Scope string_scope.
Local Open Scope Z_scope.

(** ** Python sequences *)

Module Py.

Definition len {A : Type} (s : list A) : Z := Z.of_nat (List.length s).

(** [slice.indices] for a step of one: a negative bound counts from the
    end of the sequence, and both bounds are clipped to [0 .. n]. *)
Definition slice_bound (n i : Z) : Z :=
  if i <? 0 then Z.max 0 (i + n) else Z.min i n.

(** [s[start:stop]] *)
Definition slice {A : Type} (s : list A) (start stop : Z) : list A :=
  let lo := slice_bound (len s) start in
  let hi := slice_bound (len s) stop in
  if lo <? hi
  then firstn (Z.to_nat (hi - lo)) (skipn (Z.to_nat lo) s)
  else [].

(** [str.lower] on the ASCII letters.  The only characters outside ASCII
    whose lower case is an ASCII letter map to [k] and [i], which do not
    occur in the extensions this program compares against. *)
Definition lower_ascii (c : ascii) : ascii :=
  let n := nat_of_ascii c in
  if (65 <=? n)%nat && (n <=? 90)%nat then ascii_of_nat (n + 32) else c.

Fixpoint lower (s : string) : string :=
  match s with
  | EmptyString => EmptyString
  | String c s' => String (lower_ascii c) (lower s')
  end.

(** [s.rfind(c)]: the highest index of [c], or [-1]. *)
Fixpoint rfind_from (c : ascii) (s : string) (i last : Z) : Z :=
  match s with
  | EmptyString => last
  | String a s' => rfind_from c s' (i + 1) (if Ascii.eqb a c then i else last)
  end.

Definition rfind (c : ascii) (s : string) : Z := rfind_from c s 0 (-1).

Definition strlen (s : string) : Z := Z.of_nat (String.length s).

(** [s[i:]] for [0 <= i]. *)
Definition str_from (i : Z) (s : string) : string :=
  substring (Z.to_nat i) (String.length s - Z.to_nat i) s.

(** [s.split("/")] *)
Fixpoint split_slash (s : string) : list string :=
  match s with
  | EmptyString => [EmptyString]
  | String c s' =>
      if Ascii.eqb c "/"%char then EmptyString :: split_slash s'
      else match split_slash s' with
           | [] => [String c EmptyString]
           | h :: t => String c h :: t
           end
  end.

(** ["/".join(parts)] *)
Definition join_slash (parts : list string) : string :=
  String.concat "/" parts.

(** [a / b] on integers is the quotient rounded to the nearest double, ties
    to even; it raises [OverflowError] when the rounded magnitude reaches
    [2^1024], that is, when [|a| / |b|] is at least the midpoint between
    the largest double, [2^1024 - 2^971], and [2^1024]. *)
Definition float_overflow_bound : Z := 2 ^ 1024 - 2 ^ 970.

Definition true_div_overflows (a b : Z) : bool :=
  float_overflow_bound * Z.abs b <=? Z.abs a.

Fixpoint mem (x : string) (l : list string) : bool :=
  match l with
  | [] => false
  | y :: l' => String.eqb x y || mem x l'
  end.

End Py.

(** ** pathlib, POSIX flavour

    A path is its root (empty, ["/"] or ["//"]) and the list of its
    components; [parse] reads a string as [PurePosixPath] does, dropping
    empty and ["."] components.  [suffix] is the one of Python 3.4 to 3.12:
    the name from its last dot on, unless that dot is the first or the last
    character of the name. *)

Module Pathlib.

Record Path := mkPath { root : string; tail : list string }.

Definition splitroot (p : string) : string * string :=
  match p with
  | String "/"%char (String "/"%char (String "/"%char _ as rest)) => ("/", rest)
  | String "/"%char (String "/"%char rest) => ("//", rest)
  | String "/"%char rest => ("/", rest)
  | _ => ("", p)
  end.

Definition keep_part (x : string) : bool :=
  negb (String.eqb x "") && negb (String.eqb x ".").

Definition parse (p : string) : Path :=
  let '(r, rel) := splitroot p in
  mkPath r (filter keep_part (Py.split_slash rel)).

(** [str(path)] *)
Definition str (p : Path) : string :=
  let s := root p ++ Py.join_slash (tail p) in
  if String.eqb s "" then "." else s.

(** [path.name]: the last component, or the empty string. *)
Definition name (p : Path) : string := last (tail p) "".

(** [path / entry] for a directory entry name, as [iterdir] builds it. *)
Definition child (p : Path) (entry : string) : Path :=
  mkPath (root p) (tail p ++ [entry])%list.

(** [path.suffix] *)
Definition suffix (p : Path) : string :=
  let name := name p in
  let i := Py.rfind "."%char name in
  if (0 <? i) && (i <? Py.strlen name - 1) then Py.str_from i name else "".

End Pathlib.

(** ** Data model *)

(** Decoded document text: a sequence of code points. *)
Definition codepoint := N.
Definition text := list codepoint.

Definition text_of_string (s : string) : text :=
  map N_of_ascii (list_ascii_of_string s).

(** An exception of the operating system as Python shows it: the name of
    its class and [str(e)]. *)
Record pyerr := mkErr { err_kind : string; err_str : string }.

(** What the operating system holds at a path that [os.stat] can reach:
    whether it is a directory, what [os.listdir] yields there, and what
    [read_text(encoding="utf-8", errors="ignore")] yields; on the left, the
    exception the call raises. *)
Record node := mkNode {
  nd_is_dir : bool;
  nd_listdir : pyerr + list string;
  nd_read_text : pyerr + text
}.

(** What [os.stat] answers for a path: the node, an [OSError] with its
    [errno], or a [ValueError] for a string that is no path (an embedded
    null character). *)
Inductive stat_result :=
| Stat (nd : node)
| StatOSError (errno : Z) (e : pyerr)
| StatValueError.

Definition ENOENT : Z := 2.
Definition EBADF : Z := 9.
Definition EACCES : Z := 13.
Definition ENOTDIR : Z := 20.
Definition ENAMETOOLONG : Z := 36.
Definition ELOOP : Z := 40.

Definition quoted (p : string) : string := "'" ++ p ++ "'".

Definition regular_file (p : string) (t : text) : node :=
  mkNode false
    (inl (mkErr "NotADirectoryError" ("[Errno 20] Not a directory: " ++ quoted p)))
    (inr t).

Definition directory_of (p : string) (names : list string) : node :=
  mkNode true (inr names)
    (inl (mkErr "IsADirectoryError" ("[Errno 21] Is a directory: " ++ quoted p))).

Definition no_such_file (p : string) : stat_result :=
  StatOSError ENOENT
    (mkErr "FileNotFoundError"
           ("[Errno 2] No such file or directory: " ++ quoted p)).

(** A row of [summaries]: the four TEXT columns of the CREATE TABLE,
    [document_id] being the primary key. *)
Module SummaryRow.
Record t := mk {
  document_id : string;
  filename : string;
  summary : string;
  status : string
}.
End SummaryRow.

Definition table := list SummaryRow.t.

(** The file system is looked up by the string handed to the operating
    system, [str(path)]; [summaries] is [None] while the table does not
    exist.  Faults of the storage itself are not part of the world. *)
Record World := mkWorld {
  fs : string -> stat_result;
  summaries : option table
}.

Module ListDirectoryRequest.
Record t := mk { path : string }.
End ListDirectoryRequest.

Module ReadDocumentChunkRequest.
Record t := mk { path : string; offset : Z; chunk_size : Z }.
Definition default_offset : Z := 0.
Definition default_chunk_size : Z := 2000.
End ReadDocumentChunkRequest.

Module SaveSummaryRequest.
Record t := mk {
  document_id : string;
  filename : string;
  summary : string;
  status : string
}.
End SaveSummaryRequest.

Module DirectoryEntry.
Record t := mk { name : string; path : string; is_dir : bool }.
End DirectoryEntry.

Module ListDirectoryResult.
Record t := mk { path : string; files : list DirectoryEntry.t }.
End ListDirectoryResult.

(** The [progress] f-string holds a rounded float; it is kept as the two
    integers it is computed from, once their division is known not to
    overflow.  Its rendering always has a decimal point (or is an
    infinity), so it never coincides with the literal of the other
    branch. *)
Inductive fstring :=
| Lit (s : string)
| PercentOf (num den : Z).

Module ChunkResult.
Record t := mk {
  path : string;
  filename : string;
  offset : Z;
  next_offset : option Z;
  chunk_size : Z;
  total_length : Z;
  progress : fstring;
  eof : bool;
  content : text
}.
End ChunkResult.

Module SaveResult.
Record t := mk {
  document_id : string;
  filename : string;
  status : string;
  saved : bool
}.
End SaveResult.

(** ** Effects: a handler reads and writes the world, and may raise *)

Inductive exn :=
| HTTPException (status_code : Z) (detail : string)
| RequestValidationError
| PyError (kind msg : string).

(** [str(e)] *)
Definition exn_str (e : exn) : string :=
  match e with
  | HTTPException _ d => d
  | RequestValidationError => ""
  | PyError _ m => m
  end.

Definition M (A : Type) : Type := World -> (exn + A) * World.

Definition ret {A} (a : A) : M A := fun w => (inr a, w).

Definition raise {A} (e : exn) : M A := fun w => (inl e, w).

Definition bind {A B} (m : M A) (k : A -> M B) : M B :=
  fun w =>
    match m w with
    | (inl e, w') => (inl e, w')
    | (inr a, w') => k a w'
    end.

(** [try: m except Exception as e: h e] *)
Definition try_except {A} (m : M A) (h : exn -> M A) : M A :=
  fun w =>
    match m w with
    | (inl e, w') => h e w'
    | (inr a, w') => (inr a, w')
    end.

Notation "x <- m ;; k" := (bind m (fun x => k))
  (at level 61, m at next level, right associativity).
Notation "m ;;; k" := (bind m (fun _ => k))
  (at level 61, right associativity).

(** ** The file system, as [pathlib] reaches it *)

Module Os.
Import Pathlib.

Definition stat (p : Path) : M stat_result :=
  fun w => (inr (fs w (str p)), w).

(** The errors that [exists] and [is_dir] take for an absent path; they
    let every other [OSError] through. *)
Definition ignored_errnos : list Z := [ENOENT; ENOTDIR; EBADF; ELOOP].

Definition ignore_error (errno : Z) : bool :=
  existsb (Z.eqb errno) ignored_errnos.

Definition os_error {A} (e : pyerr) : M A :=
  raise (PyError (err_kind e) (err_str e)).

(** [path.exists()] *)
Definition exists_ (p : Path) : M bool :=
  st <- stat p ;;
  match st with
  | Stat _ => ret true
  | StatOSError errno e => if ignore_error errno then ret false else os_error e
  | StatValueError => ret false
  end.

(** [path.is_dir()] *)
Definition is_dir (p : Path) : M bool :=
  st <- stat p ;;
  match st with
  | Stat nd => ret (nd_is_dir nd)
  | StatOSError errno e => if ignore_error errno then ret false else os_error e
  | StatValueError => ret false
  end.

(** [path.iterdir()]: the children, in the order of [os.listdir]. *)
Definition iterdir (p : Path) : M (list Path) :=
  st <- stat p ;;
  match st with
  | Stat nd =>
      match nd_listdir nd with
      | inl e => os_error e
      | inr names => ret (map (child p) names)
      end
  | StatOSError _ e => os_error e
  | StatValueError => raise (PyError "ValueError" "embedded null byte")
  end.

(** [path.read_text(encoding="utf-8", errors="ignore")] *)
Definition read_text (p : Path) : M text :=
  st <- stat p ;;
  match st with
  | Stat nd =>
      match nd_read_text nd with
      | inl e => os_error e
      | inr t => ret t
      end
  | StatOSError _ e => os_error e
  | StatValueError => raise (PyError "ValueError" "embedded null character")
  end.


Definition stat_raises (st : stat_result) : bool :=
  match st with
  | StatOSError errno _ => negb (ignore_error errno)
  | _ => false
  end.

Definition is_dir_of (st : stat_result) : bool :=
  match st with
  | Stat nd => nd_is_dir nd
  | _ => false
  end.

End Os.

(** ** The [summaries] table

    The table as the CREATE TABLE statement declares it: rows of four
    TEXT columns, with [document_id] as PRIMARY KEY. *)

Module Sql.

Definition same_key (k : string) (r : SummaryRow.t) : bool :=
  String.eqb (SummaryRow.document_id r) k.

(** A plain INSERT: the primary key refuses a second row with the key. *)
Definition insert_rows (t : table) (r : SummaryRow.t) : exn + table :=
  if existsb (same_key (SummaryRow.document_id r)) t
  then inl (PyError "IntegrityError" "UNIQUE constraint failed: summaries.document_id")
  else inr (t ++ [r])%list.

(** DELETE FROM summaries WHERE document_id = k *)
Definition delete_by_id (k : string) (t : table) : table :=
  filter (fun x => negb (same_key k x)) t.

(** The REPLACE conflict resolution: the rows that would violate the key
    are deleted, then the statement proceeds as a plain INSERT. *)
Definition insert_or_replace_rows (t : table) (r : SummaryRow.t) : exn + table :=
  insert_rows (delete_by_id (SummaryRow.document_id r) t) r.

Definition insert_or_replace (r : SummaryRow.t) : M unit :=
  fun w =>
    match summaries w with
    | None => (inl (PyError "OperationalError" "no such table: summaries"), w)
    | Some t =>
        match insert_or_replace_rows t r with
        | inl e => (inl e, w)
        | inr t' => (inr tt, mkWorld (fs w) (Some t'))
        end
    end.

(** SELECT * FROM summaries WHERE document_id = k *)
Definition select_by_id (k : string) (t : table) : list SummaryRow.t :=
  filter (same_key k) t.

(** The primary key holds: no two rows share a [document_id]. *)
Definition pk_unique (t : table) : Prop :=
  NoDup (map SummaryRow.document_id t).

End Sql.

(** ** Tool: list_directory *)

Definition doc_suffixes : list string := [".txt"; ".md"; ".pdf"].

Definition suffix_ok (f : Pathlib.Path) : bool :=
  Py.mem (Py.lower (Pathlib.suffix f)) doc_suffixes.

(** The list comprehension of [list_directory]: one dictionary per entry
    that passes the suffix test, in iteration order. *)
Fixpoint list_directory_files (entries : list Pathlib.Path)
  : M (list DirectoryEntry.t) :=
  match entries with
  | [] => ret []
  | f :: rest =>
      if suffix_ok f then
        d <- Os.is_dir f ;;
        files <- list_directory_files rest ;;
        ret (DirectoryEntry.mk (Pathlib.name f) (Pathlib.str f) d :: files)
      else list_directory_files rest
  end.

Definition list_directory (req : ListDirectoryRequest.t)
  : M ListDirectoryResult.t :=
  let directory := Pathlib.parse (ListDirectoryRequest.path req) in
  ex <- Os.exists_ directory ;;
  if negb ex then raise (HTTPException 404 "Directory not found")
  else
    entries <- Os.iterdir directory ;;
    files <- list_directory_files entries ;;
    ret (ListDirectoryResult.mk (Pathlib.str directory) files).

(** ** Tool: read_document_chunk *)

Definition read_document_chunk (req : ReadDocumentChunkRequest.t)
  : M ChunkResult.t :=
  let path := Pathlib.parse (ReadDocumentChunkRequest.path req) in
  ex <- Os.exists_ path ;;
  if negb ex
  then raise (HTTPException 404 ("File not found: " ++ Pathlib.str path))
  else
    text <- try_except (Os.read_text path)
              (fun e => raise (HTTPException 500
                                 ("Error reading file: " ++ exn_str e))) ;;
    let total_len := Py.len text in
    let start := Z.max 0 (ReadDocumentChunkRequest.offset req) in
    let end_ := Z.min total_len (start + ReadDocumentChunkRequest.chunk_size req) in
    let chunk := Py.slice text start end_ in
    let eof := end_ >=? total_len in
    progress <- (if total_len >? 0
                 then if Py.true_div_overflows end_ total_len
                      then raise (PyError "OverflowError"
                                    "integer division result too large for a float")
                      else ret (PercentOf end_ total_len)
                 else ret (Lit "0%")) ;;
    ret {| ChunkResult.path := Pathlib.str path;
           ChunkResult.filename := Pathlib.name path;
           ChunkResult.offset := start;
           ChunkResult.next_offset := if negb eof then Some end_ else None;
           ChunkResult.chunk_size := Py.len chunk;
           ChunkResult.total_length := total_len;
           ChunkResult.progress := progress;
           ChunkResult.eof := eof;
           ChunkResult.content := chunk |}.

(** ** Tool: save_summary_to_db *)

Definition row_of (req : SaveSummaryRequest.t) : SummaryRow.t :=
  SummaryRow.mk (SaveSummaryRequest.document_id req)
                (SaveSummaryRequest.filename req)
                (SaveSummaryRequest.summary req)
                (SaveSummaryRequest.status req).

Definition save_summary_to_db (req : SaveSummaryRequest.t) : M SaveResult.t :=
  Sql.insert_or_replace (row_of req) ;;;
  ret (SaveResult.mk (SaveSummaryRequest.document_id req)
                     (SaveSummaryRequest.filename req)
                     (SaveSummaryRequest.status req)
                     true).

(** ** Request bodies and the request models

    FastAPI validates the JSON body against the handler's request model
    before it calls the handler, and answers 422 when validation fails.
    Only the fields of a [str]-annotated model are modelled: such a field
    accepts a JSON string, whatever its contents. *)

Module Schema.

Inductive json :=
| JString (s : string)
| JNumber (n : Z)
| JNull.

Definition body := list (string * json).

(** A later duplicate of a key overrides an earlier one. *)
Fixpoint get (key : string) (b : body) : option json :=
  match b with
  | [] => None
  | (k, v) :: b' =>
      match get key b' with
      | Some v' => Some v'
      | None => if String.eqb k key then Some v else None
      end
  end.

(** A required field annotated [str]. *)
Definition str_field (key : string) (b : body) : option string :=
  match get key b with
  | Some (JString s) => Some s
  | _ => None
  end.

(** class SaveSummaryRequest(BaseModel) *)
Definition validate_SaveSummaryRequest (b : body)
  : option SaveSummaryRequest.t :=
  match str_field "document_id" b, str_field "filename" b,
        str_field "summary" b, str_field "status" b with
  | Some d, Some f, Some s, Some st => Some (SaveSummaryRequest.mk d f s st)
  | _, _, _, _ => None
  end.

End Schema.

(** POST /save_summary_to_db *)
Definition post_save_summary_to_db (b : Schema.body) : M SaveResult.t :=
  match Schema.validate_SaveSummaryRequest b with
  | None => raise RequestValidationError
  | Some req => save_summary_to_db req
  end.

(** The values the tool catalogue of [mcp_tools] advertises for [status]. *)
Definition mcp_tools_status_enum : list string := ["completed"; "failed"].

(** ** The caller's side of pagination

    The caller pages through a document by calling [read_document_chunk]
    with [offset = 0], then with [offset = next_offset] of the previous
    answer, until an answer has [eof].  [sizes k] is the [chunk_size] of the
    [k]-th call.  The loop lives in the caller, so it is run with fuel:
    [OutOfFuel] means that [fuel] calls did not reach [eof]. *)

Inductive paging :=
| Paged (chunks : list text)
| Raised (e : exn)
| OutOfFuel.

Fixpoint paginate_from (fuel : nat) (w : World) (path : string)
         (sizes : nat -> Z) (k : nat) (offset : Z) : paging :=
  match fuel with
  | O => OutOfFuel
  | S fuel' =>
      match read_document_chunk
              (ReadDocumentChunkRequest.mk path offset (sizes k)) w with
      | (inl e, _) => Raised e
      | (inr r, w') =>
          if ChunkResult.eof r then Paged [ChunkResult.content r]
          else
            match ChunkResult.next_offset r with
            | None => Paged [ChunkResult.content r]
            | Some next =>
                match paginate_from fuel' w' path sizes (S k) next with
                | Paged chunks => Paged (ChunkResult.content r :: chunks)
                | other => other
                end
            end
      end
  end.

Definition paginate (fuel : nat) (w : World) (path : string)
           (sizes : nat -> Z) : paging :=
  paginate_from fuel w path sizes 0 0.

(** ** Sequences of requests *)

(** Run the handler on each request in turn; stop at the first exception. *)
Fixpoint save_all (reqs : list SaveSummaryRequest.t) : M (list SaveResult.t) :=
  match reqs with
  | [] => ret []
  | req :: rest =>
      r <- save_summary_to_db req ;;
      rs <- save_all rest ;;
      ret (r :: rs)
  end.

(** The last request of a sequence that carries a given [document_id]. *)
Fixpoint last_save (k : string) (reqs : list SaveSummaryRequest.t)
  : option SaveSummaryRequest.t :=
  match reqs with
  | [] => None
  | req :: rest =>
      match last_save k rest with
      | Some r => Some r
      | None =>
          if String.eqb (SaveSummaryRequest.document_id req) k
          then Some req else None
      end
  end.

(** ** The listing filter in the specification's words

    An entry is kept when its extension, compared without regard to case,
    is one of [.txt], [.md], [.pdf]: the name is a non-empty stem followed
    by an extension whose lower case is one of the three. *)

Definition has_doc_extension (name : string) : Prop :=
  exists stem ext,
    name = stem ++ ext /\ stem <> "" /\ In (Py.lower ext) doc_suffixes.

(** The dictionary built for the entry [name] of [directory]. *)
Definition entry_of (w : World) (directory : Pathlib.Path) (name : string)
  : DirectoryEntry.t :=
  let f := Pathlib.child directory name in
  DirectoryEntry.mk name (Pathlib.str f)
    (Os.is_dir_of (fs w (Pathlib.str f))).

(** ** Names and paths in normal form *)

(** A directory entry name holds no separator. *)
Definition no_slash (s : string) : Prop := Py.rfind "/"%char s = -1.

(** A path as [parse] builds it and as [child] extends it: one of the three
    roots, and components that are neither empty, nor ["."], nor hold a
    separator. *)
Definition normal (p : Pathlib.Path) : Prop :=
  In (Pathlib.root p) [EmptyString; "/"; "//"]
  /\ Forall (fun s => no_slash s /\ Pathlib.keep_part s = true)
            (Pathlib.tail p).

(** ** MCP tool schemas

    The catalogue that [mcp_tools] returns: for each tool its name, its
    description and its input schema (an object with typed properties,
    some with a default or an enumeration, and the list of required
    properties). *)

Record property_schema := mkProperty {
  prop_type : string;
  prop_default : option Z;
  prop_enum : option (list string)
}.

Record tool := mkTool {
  tool_name : string;
  tool_description : string;
  input_type : string;
  input_properties : list (string * property_schema);
  input_required : list string
}.

Definition list_directory_tool : tool :=
  mkTool "list_directory" "List documents in a directory" "object"
    [ ("path", mkProperty "string" None None) ]
    [ "path" ].

Definition read_document_chunk_tool : tool :=
  mkTool "read_document_chunk" "Read a document in chunks" "object"
    [ ("path", mkProperty "string" None None);
      ("offset", mkProperty "integer" (Some 0) None);
      ("chunk_size", mkProperty "integer" (Some 2000) None) ]
    [ "path" ].

Definition save_summary_to_db_tool : tool :=
  mkTool "save_summary_to_db" "Save document summary to database" "object"
    [ ("document_id", mkProperty "string" None None);
      ("filename", mkProperty "string" None None);
      ("summary", mkProperty "string" None None);
      ("status", mkProperty "string" None (Some ["completed"; "failed"])) ]
    [ "document_id"; "filename"; "summary"; "status" ].

Definition mcp_tools : list tool :=
  [ list_directory_tool; read_document_chunk_tool; save_summary_to_db_tool ].

(** ** A small world for concrete runs *)

Fixpoint fs_of_list (l : list (string * (string -> node))) (p : string)
  : stat_result :=
  match l with
  | [] => no_such_file p
  | (k, nd) :: l' => if String.eqb k p then Stat (nd p) else fs_of_list l' p
  end.

Definition books_fs : string -> stat_result :=
  fs_of_list
    [ ("/books", fun p =>
         directory_of p ["a.txt"; "B.MD"; "notes.md"; "draft.docx";
                         ".txt"; "scan.Pdf"; "README"; "empty.txt"]);
      ("/books/a.txt", fun p => regular_file p (text_of_string "hello world"));
      ("/books/B.MD", fun p => regular_file p (text_of_string "# B"));
      ("/books/notes.md", fun p => directory_of p []);
      ("/books/draft.docx", fun p => regular_file p (text_of_string "docx"));
      ("/books/.txt", fun p => regular_file p (text_of_string "hidden"));
      ("/books/scan.Pdf", fun p => regular_file p (text_of_string "%PDF"));
      ("/books/README", fun p => regular_file p (text_of_string "read me"));
      ("/books/empty.txt", fun p => regular_file p []) ].

Definition books_world : World := mkWorld books_fs (Some []).


Definition name_too_long (p : string) : bool :=
  existsb (fun c => 255 <? Py.strlen c) (Py.split_slash p).

Definition guarded_fs (p : string) : stat_result :=
  if name_too_long p then
    StatOSError ENAMETOOLONG
      (mkErr "OSError" ("[Errno 36] File name too long: " ++ quoted p))
  else if String.eqb p "/locked" then Stat (directory_of p ["a.txt"])
  else if String.eqb p "/locked/a.txt" then
    StatOSError EACCES
      (mkErr "PermissionError" ("[Errno 13] Permission denied: " ++ quoted p))
  else books_fs p.

Definition guarded_world : World := mkWorld guarded_fs (Some []).

Definition two_saves_of_d1 : list SaveSummaryRequest.t :=
  [ SaveSummaryRequest.mk "d1" "a.txt" "first summary" "failed";
    SaveSummaryRequest.mk "d2" "B.MD" "other document" "completed";
    SaveSummaryRequest.mk "d1" "a.txt" "second summary" "completed" ].

Definition body_with_status (st : string) : Schema.body :=
  [ ("document_id", Schema.JString "d1");
    ("filename", Schema.JString "a.txt");
    ("summary", Schema.JString "a summary");
    ("status", Schema.JString st) ].

(** * Properties *)

(** ** The runtime model on concrete values *)

Example slice_hello_5_9 :
  Py.slice (text_of_string "hello world") 5 9 = text_of_string " wor".
Proof. reflexivity. Qed.

Example slice_negative_stop_hello :
  Py.slice (text_of_string "hello world") 0 (-3) = text_of_string "hello wo".
Proof. reflexivity. Qed.

Example slice_past_the_end :
  Py.slice (text_of_string "hello world") 20 11 = [].
Proof. reflexivity. Qed.

Example str_of_parsed_path :
  map (fun p => Pathlib.str (Pathlib.parse p))
      ["/data//books/./a.TXT/"; ""; "books/"; "//srv/x"; "///srv"]
  = ["/data/books/a.TXT"; "."; "books"; "//srv/x"; "/srv"].
Proof. reflexivity. Qed.

Example suffix_of_names :
  map (fun n => Pathlib.suffix (Pathlib.child (Pathlib.parse "d") n))
      ["a.TXT"; ".txt"; "a."; "a.tar.md"; "notes"; "..pdf"]
  = [".TXT"; ""; ""; ".md"; ""; ".pdf"].
Proof. reflexivity. Qed.

Example lower_of_suffix : Py.lower ".Pdf" = ".pdf".
Proof. reflexivity. Qed.

(** ** Slicing *)

Section Slices.

Context {A : Type}.
Implicit Types (s : list A) (a b : Z).

Lemma len_nonneg s : 0 <= Py.len s.
Proof. unfold Py.len. lia. Qed.

(** With both bounds non-negative and the upper one inside the sequence, a
    slice is a [firstn] of a [skipn]. *)
Lemma slice_inside s a b :
  0 <= a -> 0 <= b <= Py.len s ->
  Py.slice s a b = firstn (Z.to_nat (b - a)) (skipn (Z.to_nat a) s).
Proof.
  intros Ha [Hb Hbn]. unfold Py.slice, Py.slice_bound.
  destruct (Z.ltb_spec a 0) as [|_]; [lia|].
  destruct (Z.ltb_spec b 0) as [|_]; [lia|].
  rewrite (Z.min_l b) by exact Hbn.
  destruct (Z.ltb_spec (Z.min a (Py.len s)) b) as [Hlt|Hge].
  - rewrite Z.min_l by lia. reflexivity.
  - destruct (Z.le_gt_cases a (Py.len s)) as [Hle|Hgt].
    + rewrite Z.min_l in Hge by exact Hle.
      replace (Z.to_nat (b - a)) with O by lia. reflexivity.
    + rewrite skipn_all2 by (unfold Py.len in Hgt; lia).
      now rewrite firstn_nil.
Qed.

Lemma len_slice_inside s a b :
  0 <= a -> 0 <= b <= Py.len s ->
  Py.len (Py.slice s a b) = Z.max 0 (b - a).
Proof.
  intros Ha Hb. rewrite slice_inside by assumption.
  unfold Py.len in *. rewrite length_firstn, length_skipn. lia.
Qed.

(** A negative upper bound counts from the end. *)
Lemma slice_negative_stop s a b :
  0 <= a -> b < 0 ->
  Py.slice s a b = Py.slice s a (Z.max 0 (b + Py.len s)).
Proof.
  intros Ha Hb. pose proof (len_nonneg s) as Hn.
  unfold Py.slice, Py.slice_bound.
  destruct (Z.ltb_spec b 0) as [_|]; [|lia].
  destruct (Z.ltb_spec (Z.max 0 (b + Py.len s)) 0) as [|_]; [lia|].
  rewrite (Z.min_l (Z.max 0 (b + Py.len s))) by lia. reflexivity.
Qed.

Lemma slice_to_end s a :
  0 <= a -> Py.slice s a (Py.len s) = skipn (Z.to_nat a) s.
Proof.
  intros Ha. pose proof (len_nonneg s) as Hn.
  rewrite slice_inside by lia.
  apply firstn_all2. rewrite length_skipn. unfold Py.len. lia.
Qed.

(** What is left of a sequence from [a] on is the slice up to [b] followed
    by what is left from [b] on. *)
Lemma skipn_slice s a b :
  0 <= a <= b -> b <= Py.len s ->
  skipn (Z.to_nat a) s = (Py.slice s a b ++ skipn (Z.to_nat b) s)%list.
Proof.
  intros Hab Hb. rewrite slice_inside by lia.
  replace (Z.to_nat b) with (Z.to_nat (b - a) + Z.to_nat a)%nat by lia.
  rewrite <- skipn_skipn. now rewrite firstn_skipn.
Qed.

End Slices.

(** ** read_document_chunk on a readable file *)

Arguments Os.ignore_error : simpl never.

Ltac run_os :=
  unfold Os.exists_, Os.is_dir, Os.iterdir, Os.read_text, Os.os_error, Os.stat,
    bind, ret, raise, try_except; cbn.

Lemma float_overflow_bound_big : 1 < Py.float_overflow_bound.
Proof. reflexivity. Qed.

(** The division of [progress] cannot overflow when the end index lies
    inside the document. *)
Lemma no_overflow_inside (e L : Z) :
  0 <= e <= L -> (L >? 0) && Py.true_div_overflows e L = false.
Proof.
  intros He. unfold Py.true_div_overflows.
  pose proof float_overflow_bound_big as Hb.
  set (b := Py.float_overflow_bound) in *. clearbody b.
  destruct (Z.gtb_spec L 0); [|reflexivity]. cbn.
  apply Z.leb_gt. rewrite !Z.abs_eq by lia. nia.
Qed.

(** What the handler does on a path that exists and can be read: it
    answers, unless the division of [progress] overflows. *)
Lemma read_document_chunk_run (w : World) (req : ReadDocumentChunkRequest.t)
      (nd : node) (t : text) :
  let path := Pathlib.parse (ReadDocumentChunkRequest.path req) in
  let start := Z.max 0 (ReadDocumentChunkRequest.offset req) in
  let end_ := Z.min (Py.len t) (start + ReadDocumentChunkRequest.chunk_size req) in
  fs w (Pathlib.str path) = Stat nd ->
  nd_read_text nd = inr t ->
  read_document_chunk req w =
    (if (Py.len t >? 0) && Py.true_div_overflows end_ (Py.len t)
     then inl (PyError "OverflowError"
                       "integer division result too large for a float")
     else
       inr {| ChunkResult.path := Pathlib.str path;
              ChunkResult.filename := Pathlib.name path;
              ChunkResult.offset := start;
              ChunkResult.next_offset :=
                if negb (end_ >=? Py.len t) then Some end_ else None;
              ChunkResult.chunk_size := Py.len (Py.slice t start end_);
              ChunkResult.total_length := Py.len t;
              ChunkResult.progress :=
                if Py.len t >? 0 then PercentOf end_ (Py.len t) else Lit "0%";
              ChunkResult.eof := end_ >=? Py.len t;
              ChunkResult.content := Py.slice t start end_ |}, w).
Proof.
  intros path start end_ Hfs Hrd.
  unfold read_document_chunk. fold path. run_os.
  rewrite Hfs. cbn. rewrite Hfs, Hrd. cbn. fold start end_.
  destruct (Py.len t >? 0); cbn; [|reflexivity].
  destruct (Py.true_div_overflows end_ (Py.len t)); reflexivity.
Qed.

(** The answer for a path that exists and can be read, when the division
    of [progress] does not overflow. *)
Lemma read_document_chunk_ok (w : World) (req : ReadDocumentChunkRequest.t)
      (nd : node) (t : text) :
  let path := Pathlib.parse (ReadDocumentChunkRequest.path req) in
  let start := Z.max 0 (ReadDocumentChunkRequest.offset req) in
  let end_ := Z.min (Py.len t) (start + ReadDocumentChunkRequest.chunk_size req) in
  fs w (Pathlib.str path) = Stat nd ->
  nd_read_text nd = inr t ->
  (Py.len t >? 0) && Py.true_div_overflows end_ (Py.len t) = false ->
  read_document_chunk req w =
    (inr {| ChunkResult.path := Pathlib.str path;
            ChunkResult.filename := Pathlib.name path;
            ChunkResult.offset := start;
            ChunkResult.next_offset :=
              if negb (end_ >=? Py.len t) then Some end_ else None;
            ChunkResult.chunk_size := Py.len (Py.slice t start end_);
            ChunkResult.total_length := Py.len t;
            ChunkResult.progress :=
              if Py.len t >? 0 then PercentOf end_ (Py.len t) else Lit "0%";
            ChunkResult.eof := end_ >=? Py.len t;
            ChunkResult.content := Py.slice t start end_ |}, w).
Proof.
  intros path start end_ Hfs Hrd Hno.
  rewrite (read_document_chunk_run w req nd t Hfs Hrd).
  fold start end_. now rewrite Hno.
Qed.

(** The same, for a request whose end index is not negative. *)
Lemma read_document_chunk_inside (w : World) (req : ReadDocumentChunkRequest.t)
      (nd : node) (t : text) :
  let path := Pathlib.parse (ReadDocumentChunkRequest.path req) in
  let start := Z.max 0 (ReadDocumentChunkRequest.offset req) in
  let end_ := Z.min (Py.len t) (start + ReadDocumentChunkRequest.chunk_size req) in
  fs w (Pathlib.str path) = Stat nd ->
  nd_read_text nd = inr t ->
  0 <= start + ReadDocumentChunkRequest.chunk_size req ->
  read_document_chunk req w =
    (inr {| ChunkResult.path := Pathlib.str path;
            ChunkResult.filename := Pathlib.name path;
            ChunkResult.offset := start;
            ChunkResult.next_offset :=
              if negb (end_ >=? Py.len t) then Some end_ else None;
            ChunkResult.chunk_size := Py.len (Py.slice t start end_);
            ChunkResult.total_length := Py.len t;
            ChunkResult.progress :=
              if Py.len t >? 0 then PercentOf end_ (Py.len t) else Lit "0%";
            ChunkResult.eof := end_ >=? Py.len t;
            ChunkResult.content := Py.slice t start end_ |}, w).
Proof.
  intros path start end_ Hfs Hrd Hnn.
  apply (read_document_chunk_ok w req nd t Hfs Hrd).
  apply no_overflow_inside. pose proof (len_nonneg t). lia.
Qed.

(** A successful call found a readable file, did not overflow, and left
    the world as it was. *)
Lemma read_document_chunk_inv (w w' : World) (req : ReadDocumentChunkRequest.t)
      (r : ChunkResult.t) :
  read_document_chunk req w = (inr r, w') ->
  exists nd t,
    fs w (Pathlib.str (Pathlib.parse (ReadDocumentChunkRequest.path req))) = Stat nd
    /\ nd_read_text nd = inr t /\ w' = w
    /\ (Py.len t >? 0)
       && Py.true_div_overflows
            (Z.min (Py.len t)
                   (Z.max 0 (ReadDocumentChunkRequest.offset req)
                    + ReadDocumentChunkRequest.chunk_size req)) (Py.len t)
       = false.
Proof.
  intros Hrun.
  destruct (fs w (Pathlib.str (Pathlib.parse (ReadDocumentChunkRequest.path req))))
    as [nd|errno e|] eqn:Hfs.
  - destruct (nd_read_text nd) as [e|t] eqn:Hrd.
    + revert Hrun. unfold read_document_chunk. run_os.
      rewrite Hfs. cbn. rewrite Hfs, Hrd. discriminate.
    + rewrite (read_document_chunk_run w req nd t Hfs Hrd) in Hrun.
      destruct (_ && _) eqn:Hno; [discriminate|].
      injection Hrun as _ Hw. exists nd, t. auto.
  - revert Hrun. unfold read_document_chunk. run_os. rewrite Hfs. cbn.
    destruct (Os.ignore_error errno); cbn; discriminate.
  - revert Hrun. unfold read_document_chunk. run_os. rewrite Hfs. cbn.
    discriminate.
Qed.

(** ** The example of the specification: ["hello world"], offset 5, size 4 *)

Example read_hello_5_4 :
  fst (read_document_chunk
         (ReadDocumentChunkRequest.mk "/books/a.txt" 5 4) books_world)
  = inr {| ChunkResult.path := "/books/a.txt";
           ChunkResult.filename := "a.txt";
           ChunkResult.offset := 5;
           ChunkResult.next_offset := Some 9;
           ChunkResult.chunk_size := 4;
           ChunkResult.total_length := 11;
           ChunkResult.progress := PercentOf 9 11;
           ChunkResult.eof := false;
           ChunkResult.content := text_of_string " wor" |}.
Proof. reflexivity. Qed.

(** ** Chunk bounds *)

(** C1 (the code at the input where it departs from the claim): on the
    11-character document ["hello world"], [offset = 0] and
    [chunk_size = -3] give [start = 0] and [end = -3], so [start >= end];
    the slice [text[0:-3]] counts its upper bound from the end of the text
    and the answer carries the 8 characters ["hello wo"], not the empty
    string, with [next_offset = -3] and [eof = false]. *)
Theorem read_document_chunk_negative_end :
  let req := ReadDocumentChunkRequest.mk "/books/a.txt" 0 (-3) in
  let start := Z.max 0 (ReadDocumentChunkRequest.offset req) in
  let end_ := Z.min 11 (start + ReadDocumentChunkRequest.chunk_size req) in
  start = 0 /\ end_ = -3 /\ start >= end_ /\
  read_document_chunk req books_world
  = (inr {| ChunkResult.path := "/books/a.txt";
            ChunkResult.filename := "a.txt";
            ChunkResult.offset := 0;
            ChunkResult.next_offset := Some (-3);
            ChunkResult.chunk_size := 8;
            ChunkResult.total_length := 11;
            ChunkResult.progress := PercentOf (-3) 11;
            ChunkResult.eof := false;
            ChunkResult.content := text_of_string "hello wo" |},
     books_world).
Proof. cbv zeta. repeat split; try reflexivity. cbn. lia. Qed.

(** Where the computed end is not negative, the first claim holds as it is
    written: the content is the slice, empty as soon as [start >= end] or
    [start >= total_len], and [eof] compares the end with the length. *)
Lemma read_document_chunk_bounds (w : World) (req : ReadDocumentChunkRequest.t)
      (nd : node) (t : text) :
  let start := Z.max 0 (ReadDocumentChunkRequest.offset req) in
  let end_ := Z.min (Py.len t) (start + ReadDocumentChunkRequest.chunk_size req) in
  fs w (Pathlib.str (Pathlib.parse (ReadDocumentChunkRequest.path req))) = Stat nd ->
  nd_read_text nd = inr t ->
  0 <= end_ ->
  exists r,
    read_document_chunk req w = (inr r, w)
    /\ ChunkResult.content r = Py.slice t start end_
    /\ ChunkResult.content r
       = firstn (Z.to_nat (end_ - start)) (skipn (Z.to_nat start) t)
    /\ (start >= end_ \/ start >= Py.len t -> ChunkResult.content r = [])
    /\ ChunkResult.eof r = (end_ >=? Py.len t).
Proof.
  intros start end_ Hfs Hrd Hend.
  eexists. split.
  { apply (read_document_chunk_ok w req nd t Hfs Hrd).
    apply no_overflow_inside. fold start end_. subst end_. lia. }
  cbn. fold start end_.
  assert (Hin : Py.slice t start end_
                = firstn (Z.to_nat (end_ - start)) (skipn (Z.to_nat start) t))
    by (apply slice_inside; subst start end_; lia).
  repeat split; auto.
  intros Hempty. rewrite Hin.
  assert (Hs : start >= end_) by (subst end_; lia).
  replace (Z.to_nat (end_ - start)) with O by lia. reflexivity.
Qed.

(** C2, as stated, fails: on ["hello world"] (L = 11) with [offset = -5]
    and [chunk_size = 12] the content has 11 characters and [eof] is true,
    where the stated formulas, which use the offset as it was requested,
    give 7 and false. *)
Lemma chunk_length_by_requested_offset_fails :
  exists r,
    fst (read_document_chunk
           (ReadDocumentChunkRequest.mk "/books/a.txt" (-5) 12) books_world)
    = inr r
    /\ ChunkResult.total_length r = 11
    /\ Py.len (ChunkResult.content r) = 11
    /\ Z.max 0 (Z.min 11 (-5 + 12) - Z.max 0 (-5)) = 7
    /\ Py.len (ChunkResult.content r)
       <> Z.max 0 (Z.min 11 (-5 + 12) - Z.max 0 (-5))
    /\ ChunkResult.eof r = true
    /\ (Z.min 11 (-5 + 12) >=? 11) = false.
Proof.
  eexists. split; [reflexivity|]. cbn. repeat split; discriminate.
Qed.

(** C2, amended: with [start = max(0, offset)] in the place of the
    requested offset, every answer has [eof] equal to
    [min(L, start + chunk_size) >= L]; and whenever [start + chunk_size] is
    not negative the call does answer, with content of
    [max(0, min(L, start + chunk_size) - start)] characters. *)
Theorem chunk_length_by_clamped_offset (w : World)
        (req : ReadDocumentChunkRequest.t) (nd : node) (t : text) :
  let L := Py.len t in
  let start := Z.max 0 (ReadDocumentChunkRequest.offset req) in
  let chunk_size := ReadDocumentChunkRequest.chunk_size req in
  fs w (Pathlib.str (Pathlib.parse (ReadDocumentChunkRequest.path req))) = Stat nd ->
  nd_read_text nd = inr t ->
  (forall r w',
      read_document_chunk req w = (inr r, w') ->
      ChunkResult.total_length r = L
      /\ ChunkResult.eof r = (Z.min L (start + chunk_size) >=? L))
  /\ (0 <= start + chunk_size ->
      exists r,
        read_document_chunk req w = (inr r, w)
        /\ ChunkResult.total_length r = L
        /\ ChunkResult.eof r = (Z.min L (start + chunk_size) >=? L)
        /\ Py.len (ChunkResult.content r)
           = Z.max 0 (Z.min L (start + chunk_size) - start)).
Proof.
  intros L start chunk_size Hfs Hrd. split.
  - intros r w' Hrun.
    destruct (read_document_chunk_inv _ _ _ _ Hrun)
      as (nd' & t' & Hfs' & Hrd' & -> & Hno).
    rewrite Hfs in Hfs'. injection Hfs' as <-.
    rewrite Hrd in Hrd'. injection Hrd' as <-.
    rewrite (read_document_chunk_ok w req nd t Hfs Hrd Hno) in Hrun.
    injection Hrun as <-. cbn. split; reflexivity.
  - intros Hnn. pose proof (len_nonneg t) as HL.
    eexists. split; [apply (read_document_chunk_inside w req nd t Hfs Hrd Hnn)|].
    cbn. repeat split.
    apply len_slice_inside; subst start chunk_size; lia.
Qed.

Lemma chunk_length_by_clamped_offset_witness :
  (forall r w',
      read_document_chunk
        (ReadDocumentChunkRequest.mk "/books/a.txt" (-5) 12) books_world
      = (inr r, w') ->
      ChunkResult.total_length r = 11
      /\ ChunkResult.eof r = (Z.min 11 (0 + 12) >=? 11))
  /\ (0 <= 0 + 12 ->
      exists r,
        read_document_chunk
          (ReadDocumentChunkRequest.mk "/books/a.txt" (-5) 12) books_world
        = (inr r, books_world)
        /\ ChunkResult.total_length r = 11
        /\ ChunkResult.eof r = (Z.min 11 (0 + 12) >=? 11)
        /\ Py.len (ChunkResult.content r) = Z.max 0 (Z.min 11 (0 + 12) - 0)).
Proof.
  exact (chunk_length_by_clamped_offset books_world
           (ReadDocumentChunkRequest.mk "/books/a.txt" (-5) 12)
           (regular_file "/books/a.txt" (text_of_string "hello world"))
           (text_of_string "hello world") eq_refl eq_refl).
Defined.

(** ** Empty documents *)

(** C4 (the code at the input where it departs from the claim): on an empty
    document, [offset = 0] and [chunk_size = -1] give [end = -1]; the answer
    has [total_length = 0], empty content and progress ["0%"], but
    [eof = false] and [next_offset = -1]. *)
Theorem read_document_chunk_empty_negative_size :
  read_document_chunk
    (ReadDocumentChunkRequest.mk "/books/empty.txt" 0 (-1)) books_world
  = (inr {| ChunkResult.path := "/books/empty.txt";
            ChunkResult.filename := "empty.txt";
            ChunkResult.offset := 0;
            ChunkResult.next_offset := Some (-1);
            ChunkResult.chunk_size := 0;
            ChunkResult.total_length := 0;
            ChunkResult.progress := Lit "0%";
            ChunkResult.eof := false;
            ChunkResult.content := [] |},
     books_world).
Proof. reflexivity. Qed.

(** On an empty document three of the four fields are as claimed for all
    offsets and sizes; [eof] is true exactly when [max(0, offset) +
    chunk_size] is not negative. *)
Lemma read_document_chunk_empty (w : World) (req : ReadDocumentChunkRequest.t)
      (nd : node) :
  let start := Z.max 0 (ReadDocumentChunkRequest.offset req) in
  fs w (Pathlib.str (Pathlib.parse (ReadDocumentChunkRequest.path req))) = Stat nd ->
  nd_read_text nd = inr [] ->
  exists r,
    read_document_chunk req w = (inr r, w)
    /\ ChunkResult.total_length r = 0
    /\ ChunkResult.content r = []
    /\ ChunkResult.progress r = Lit "0%"
    /\ ChunkResult.eof r
       = (0 <=? start + ReadDocumentChunkRequest.chunk_size req).
Proof.
  intros start Hfs Hrd.
  eexists. split; [apply (read_document_chunk_ok w req nd [] Hfs Hrd eq_refl)|].
  cbn. repeat split.
  - unfold Py.slice. destruct (_ <? _); [|reflexivity].
    now rewrite skipn_nil, firstn_nil.
  - fold start. unfold Py.len. cbn [List.length Z.of_nat].
    destruct (Z.leb_spec 0 (start + ReadDocumentChunkRequest.chunk_size req));
      destruct (Z.geb_spec
                  (Z.min 0 (start + ReadDocumentChunkRequest.chunk_size req)) 0);
      try reflexivity; lia.
Qed.

(** ** The fields of a successful answer *)

(** C9: in every successful answer [next_offset] is null exactly when [eof]
    is true, and when [eof] is false it is the computed end index
    [min(total_length, offset + chunk_size)], [offset] being the clamped
    offset the answer reports. *)
Theorem next_offset_null_iff_eof (w w' : World)
        (req : ReadDocumentChunkRequest.t) (r : ChunkResult.t) :
  read_document_chunk req w = (inr r, w') ->
  (ChunkResult.next_offset r = None <-> ChunkResult.eof r = true)
  /\ (ChunkResult.eof r = false ->
      ChunkResult.next_offset r
      = Some (Z.min (ChunkResult.total_length r)
                    (Z.max 0 (ReadDocumentChunkRequest.offset req)
                     + ReadDocumentChunkRequest.chunk_size req))).
Proof.
  intros Hrun.
  destruct (read_document_chunk_inv _ _ _ _ Hrun) as (nd & t & Hfs & Hrd & -> & Hno).
  rewrite (read_document_chunk_ok w req nd t Hfs Hrd Hno) in Hrun.
  injection Hrun as <-. cbn.
  destruct (_ >=? _); cbn; split; try split; congruence.
Qed.

Lemma next_offset_null_iff_eof_witness :
  (Some 9 = None <-> false = true)
  /\ (false = false -> Some 9 = Some (Z.min 11 (Z.max 0 5 + 4))).
Proof.
  exact (next_offset_null_iff_eof books_world books_world
           (ReadDocumentChunkRequest.mk "/books/a.txt" 5 4) _ eq_refl).
Defined.

(** C10: in every successful answer the [offset] field is the clamped
    [max(0, requested offset)] and the [chunk_size] field is the length of
    the returned content. *)
Theorem offset_and_chunk_size_fields (w w' : World)
        (req : ReadDocumentChunkRequest.t) (r : ChunkResult.t) :
  read_document_chunk req w = (inr r, w') ->
  ChunkResult.offset r = Z.max 0 (ReadDocumentChunkRequest.offset req)
  /\ ChunkResult.chunk_size r = Py.len (ChunkResult.content r).
Proof.
  intros Hrun.
  destruct (read_document_chunk_inv _ _ _ _ Hrun) as (nd & t & Hfs & Hrd & -> & Hno).
  rewrite (read_document_chunk_ok w req nd t Hfs Hrd Hno) in Hrun.
  injection Hrun as <-. cbn. split; reflexivity.
Qed.

Lemma offset_and_chunk_size_fields_witness :
  0 = Z.max 0 (-5) /\ 3 = Py.len (text_of_string "hel").
Proof.
  exact (offset_and_chunk_size_fields books_world books_world
           (ReadDocumentChunkRequest.mk "/books/a.txt" (-5) 3) _ eq_refl).
Defined.

(** ** Pagination *)

(** One call of the loop on a readable document. *)
Lemma paginate_from_step (fuel : nat) (w : World) (path : string)
      (sizes : nat -> Z) (k : nat) (offset : Z) (nd : node) (t : text) :
  let end_ := Z.min (Py.len t) (Z.max 0 offset + sizes k) in
  fs w (Pathlib.str (Pathlib.parse path)) = Stat nd ->
  nd_read_text nd = inr t ->
  0 <= Z.max 0 offset + sizes k ->
  paginate_from (S fuel) w path sizes k offset
  = if end_ >=? Py.len t
    then Paged [Py.slice t (Z.max 0 offset) end_]
    else match paginate_from fuel w path sizes (S k) end_ with
         | Paged chunks => Paged (Py.slice t (Z.max 0 offset) end_ :: chunks)
         | other => other
         end.
Proof.
  intros end_ Hfs Hrd Hnn. cbn [paginate_from].
  rewrite (read_document_chunk_inside w
             (ReadDocumentChunkRequest.mk path offset (sizes k)) nd t Hfs Hrd Hnn).
  cbn. fold end_.
  destruct (end_ >=? Py.len t); reflexivity.
Qed.

(** From any offset inside the document, positive sizes and enough fuel
    give the rest of the document. *)
Lemma paginate_from_rest (w : World) (path : string) (sizes : nat -> Z)
      (nd : node) (t : text) :
  fs w (Pathlib.str (Pathlib.parse path)) = Stat nd ->
  nd_read_text nd = inr t ->
  (forall k, 0 < sizes k) ->
  forall (fuel k : nat) (offset : Z),
    0 <= offset <= Py.len t ->
    (Z.to_nat (Py.len t - offset) < fuel)%nat ->
    exists chunks,
      paginate_from fuel w path sizes k offset = Paged chunks
      /\ List.concat chunks = skipn (Z.to_nat offset) t.
Proof.
  intros Hfs Hrd Hpos.
  induction fuel as [|fuel IH]; intros k offset Hoff Hfuel; [lia|].
  specialize (Hpos k).
  rewrite (paginate_from_step fuel w path sizes k offset nd t Hfs Hrd)
    by lia.
  rewrite Z.max_r by lia.
  destruct (Z.geb_spec (Z.min (Py.len t) (offset + sizes k)) (Py.len t))
    as [Hge|Hlt].
  - eexists. split; [reflexivity|].
    rewrite Z.min_l by lia. cbn [List.concat]. rewrite app_nil_r.
    apply slice_to_end. lia.
  - rewrite Z.min_r in * by lia.
    destruct (IH (S k) (offset + sizes k)) as (chunks & -> & Hcat); [lia|lia|].
    eexists. split; [reflexivity|].
    cbn [List.concat]. rewrite Hcat. symmetry. apply skipn_slice; lia.
Qed.

(** With a size that is not positive the cursor never advances. *)
Lemma paginate_from_stalls (w : World) (path : string) (sizes : nat -> Z)
      (nd : node) (t : text) :
  fs w (Pathlib.str (Pathlib.parse path)) = Stat nd ->
  nd_read_text nd = inr t ->
  0 < Py.len t ->
  (forall k, sizes k = 0) ->
  forall (fuel k : nat), paginate_from fuel w path sizes k 0 = OutOfFuel.
Proof.
  intros Hfs Hrd Hlen Hzero.
  induction fuel as [|fuel IH]; intros k; [reflexivity|].
  rewrite (paginate_from_step fuel w path sizes k 0 nd t Hfs Hrd)
    by (rewrite Hzero; cbn; lia).
  rewrite Hzero. cbn [Z.max Z.compare Z.add].
  rewrite Z.min_r by lia.
  destruct (Z.geb_spec 0 (Py.len t)); [lia|].
  now rewrite IH.
Qed.

(** C3, as stated, fails: with [chunk_size = 0] on the document
    ["hello world"] every answer is empty with [eof = false] and
    [next_offset = 0], so no number of calls reaches [eof]. *)
Lemma paginate_zero_size_never_eof :
  ~ exists fuel chunks,
      paginate fuel books_world "/books/a.txt" (fun _ => 0) = Paged chunks.
Proof.
  intros (fuel & chunks & H). unfold paginate in H.
  rewrite (paginate_from_stalls books_world "/books/a.txt" (fun _ => 0)
             (regular_file "/books/a.txt" (text_of_string "hello world"))
             (text_of_string "hello world")) in H;
    [discriminate|reflexivity|reflexivity|reflexivity|reflexivity].
Qed.

(** C3, amended: when every call asks for a positive [chunk_size], paging
    through a readable document from offset 0 reaches [eof] within
    [length of the document + 1] calls, and the contents of the answers,
    concatenated in order, are exactly the decoded document. *)
Theorem paginate_complete (w : World) (path : string) (sizes : nat -> Z)
        (nd : node) (t : text) (fuel : nat) :
  fs w (Pathlib.str (Pathlib.parse path)) = Stat nd ->
  nd_read_text nd = inr t ->
  (forall k, 0 < sizes k) ->
  (List.length t < fuel)%nat ->
  exists chunks,
    paginate fuel w path sizes = Paged chunks /\ List.concat chunks = t.
Proof.
  intros Hfs Hrd Hpos Hfuel.
  destruct (paginate_from_rest w path sizes nd t Hfs Hrd Hpos fuel 0%nat 0)
    as (chunks & Hrun & Hcat).
  - pose proof (len_nonneg t). lia.
  - unfold Py.len. lia.
  - exists chunks. split; [exact Hrun|exact Hcat].
Qed.

Lemma paginate_complete_witness :
  exists chunks,
    paginate 12 books_world "/books/a.txt" (fun _ => 4) = Paged chunks
    /\ List.concat chunks = text_of_string "hello world".
Proof.
  apply (paginate_complete books_world "/books/a.txt" (fun _ => 4)
           (regular_file "/books/a.txt" (text_of_string "hello world"))
           (text_of_string "hello world") 12).
  - reflexivity.
  - reflexivity.
  - intros _. reflexivity.
  - cbn. lia.
Defined.

Example paginate_hello_by_4 :
  paginate 12 books_world "/books/a.txt" (fun _ => 4)
  = Paged [text_of_string "hell"; text_of_string "o wo"; text_of_string "rld"].
Proof. reflexivity. Qed.

(** ** Names and suffixes *)

Section Names.

Implicit Types (s stem ext : string) (c : ascii) (i last : Z).

Lemma strlen_append s1 s2 :
  String.length (s1 ++ s2) = (String.length s1 + String.length s2)%nat.
Proof. induction s1 as [|c s1 IH]; cbn; [reflexivity|now rewrite IH]. Qed.

Lemma substring_all s : substring 0 (String.length s) s = s.
Proof. induction s as [|c s IH]; cbn; [reflexivity|now rewrite IH]. Qed.

Lemma substring_skip_prefix s1 s2 n :
  substring (String.length s1) n (s1 ++ s2) = substring 0 n s2.
Proof. induction s1 as [|c s1 IH]; cbn; [reflexivity|exact IH]. Qed.

(** A string is what precedes an index followed by what starts there. *)
Lemma substring_split s (n : nat) :
  (n <= String.length s)%nat ->
  s = substring 0 n s ++ substring n (String.length s - n) s.
Proof.
  revert n. induction s as [|c s IH]; intros [|n] Hn; cbn in *;
    try reflexivity; try lia.
  - now rewrite substring_all.
  - f_equal. apply IH. lia.
Qed.

Lemma length_substring_prefix s (n : nat) :
  (n <= String.length s)%nat -> String.length (substring 0 n s) = n.
Proof.
  revert n. induction s as [|c s IH]; intros [|n] Hn; cbn in *;
    try reflexivity; try lia.
  f_equal. apply IH. lia.
Qed.

Lemma str_from_append stem ext :
  Py.str_from (Py.strlen stem) (stem ++ ext) = ext.
Proof.
  unfold Py.str_from, Py.strlen. rewrite Nat2Z.id, strlen_append.
  replace (String.length stem + String.length ext - String.length stem)%nat
    with (String.length ext) by lia.
  rewrite substring_skip_prefix. apply substring_all.
Qed.

Lemma rfind_from_append c s1 s2 i last :
  Py.rfind_from c (s1 ++ s2) i last
  = Py.rfind_from c s2 (i + Py.strlen s1) (Py.rfind_from c s1 i last).
Proof.
  revert i last. induction s1 as [|a s1 IH]; intros i last.
  - cbn. f_equal. unfold Py.strlen. cbn. lia.
  - cbn [append Py.rfind_from]. rewrite IH. f_equal.
    unfold Py.strlen. cbn [String.length]. lia.
Qed.

(** Lower-casing neither creates nor removes a dot. *)
Lemma lower_ascii_dot c :
  Ascii.eqb (Py.lower_ascii c) "."%char = Ascii.eqb c "."%char.
Proof.
  destruct c as [[] [] [] [] [] [] [] []]; reflexivity.
Qed.

Lemma rfind_from_lower s i last :
  Py.rfind_from "."%char (Py.lower s) i last = Py.rfind_from "."%char s i last.
Proof.
  revert i last. induction s as [|a s IH]; intros i last; cbn;
    [reflexivity|]. now rewrite IH, lower_ascii_dot.
Qed.

Lemma length_lower s : String.length (Py.lower s) = String.length s.
Proof. induction s as [|a s IH]; cbn; [reflexivity|now rewrite IH]. Qed.

Lemma mem_In (x : string) (l : list string) : Py.mem x l = true <-> In x l.
Proof.
  induction l as [|y l IH]; cbn; [split; [discriminate|tauto]|].
  rewrite orb_true_iff, IH, String.eqb_eq. split; intros [H|H]; auto.
Qed.

(** An extension of the list starts with the only dot it has, and is at
    least three characters long. *)
Lemma doc_suffix_shape ext i last :
  In (Py.lower ext) doc_suffixes ->
  Py.rfind_from "."%char ext i last = i /\ 3 <= Py.strlen ext.
Proof.
  intros Hin. rewrite <- rfind_from_lower. unfold Py.strlen.
  rewrite <- (length_lower ext).
  destruct Hin as [<-|[<-|[<-|[]]]]; cbn; split; reflexivity || lia.
Qed.

Lemma name_child (p : Pathlib.Path) (n : string) :
  Pathlib.name (Pathlib.child p n) = n.
Proof. unfold Pathlib.name, Pathlib.child. cbn. apply last_last. Qed.

(** The test of the comprehension is the specification's filter. *)
Lemma suffix_ok_iff (p : Pathlib.Path) (n : string) :
  suffix_ok (Pathlib.child p n) = true <-> has_doc_extension n.
Proof.
  unfold suffix_ok, Pathlib.suffix. rewrite name_child, mem_In.
  split.
  - destruct (_ && _) eqn:Hc.
    + apply andb_true_iff in Hc as [Hlo Hhi].
      apply Z.ltb_lt in Hlo, Hhi. unfold Py.strlen in Hhi.
      intros Hin.
      exists (substring 0 (Z.to_nat (Py.rfind "."%char n)) n),
             (Py.str_from (Py.rfind "."%char n) n).
      split; [apply substring_split; lia|]. split; [|exact Hin].
      intros Hempty.
      apply (f_equal String.length) in Hempty.
      rewrite length_substring_prefix in Hempty by lia. cbn in Hempty. lia.
    + cbn. intuition discriminate.
  - intros (stem & ext & -> & Hstem & Hin).
    unfold Py.rfind. rewrite rfind_from_append.
    destruct (doc_suffix_shape ext (0 + Py.strlen stem)
                (Py.rfind_from "."%char stem 0 (-1)) Hin) as [-> Hlen].
    assert (Hpos : 0 < Py.strlen stem).
    { destruct stem; [congruence|]. unfold Py.strlen. cbn [String.length]. lia. }
    assert (Hcond : (0 <? 0 + Py.strlen stem)
                    && (0 + Py.strlen stem <? Py.strlen (stem ++ ext) - 1)
                    = true).
    { apply andb_true_iff. split; apply Z.ltb_lt; [lia|].
      unfold Py.strlen in *. rewrite strlen_append. lia. }
    rewrite Hcond. cbn [Z.add]. now rewrite str_from_append.
Qed.

End Names.

(** ** Directory listing *)

(** [is_dir] on an entry whose stat does not raise. *)
Lemma is_dir_ok (f : Pathlib.Path) (w : World) :
  Os.stat_raises (fs w (Pathlib.str f)) = false ->
  Os.is_dir f w = (inr (Os.is_dir_of (fs w (Pathlib.str f))), w).
Proof.
  unfold Os.is_dir, Os.stat, Os.os_error, bind, ret, raise. cbv beta iota.
  destruct (fs w (Pathlib.str f)) as [nd|errno e|]; cbn; try reflexivity.
  now destruct (Os.ignore_error errno).
Qed.

(** [is_dir] on an entry whose stat fails with an error that is not
    ignored: the error is raised again. *)
Lemma is_dir_raises (f : Pathlib.Path) (w : World) (errno : Z) (e : pyerr) :
  fs w (Pathlib.str f) = StatOSError errno e ->
  Os.ignore_error errno = false ->
  Os.is_dir f w = (inl (PyError (err_kind e) (err_str e)), w).
Proof.
  intros Hfs Hig.
  unfold Os.is_dir, Os.stat, Os.os_error, bind, ret, raise. cbv beta iota.
  now rewrite Hfs, Hig.
Qed.

(** The comprehension runs over the children of the directory, keeps those
    that pass the test, and leaves the world alone, as long as the stat of
    no kept entry raises. *)
Lemma list_directory_files_run (w : World) (directory : Pathlib.Path)
      (names : list string) :
  (forall n, In n names -> suffix_ok (Pathlib.child directory n) = true ->
             Os.stat_raises (fs w (Pathlib.str (Pathlib.child directory n)))
             = false) ->
  list_directory_files (map (Pathlib.child directory) names) w
  = (inr (map (entry_of w directory)
              (filter (fun n => suffix_ok (Pathlib.child directory n)) names)),
     w).
Proof.
  induction names as [|n names IH]; intros Hstat; [reflexivity|].
  cbn [map filter list_directory_files].
  assert (IH' := IH (fun m Hm => Hstat m (or_intror Hm))).
  destruct (suffix_ok (Pathlib.child directory n)) eqn:Hok; [|exact IH'].
  unfold bind at 1.
  rewrite (is_dir_ok _ w (Hstat n (or_introl eq_refl) Hok)).
  unfold bind, ret. rewrite IH', name_child. reflexivity.
Qed.

(** C5, as stated, fails: [/locked] exists and can be listed, and its one
    entry [a.txt] has a listed extension, but the stat behind [is_dir] is
    refused (EACCES) and the error leaves the handler: there is no
    listing. *)
Lemma list_directory_unsearchable_directory_raises :
  exists nd,
    guarded_fs (Pathlib.str (Pathlib.parse "/locked")) = Stat nd
    /\ nd_listdir nd = inr ["a.txt"]
    /\ has_doc_extension "a.txt"
    /\ list_directory (ListDirectoryRequest.mk "/locked") guarded_world
       = (inl (PyError "PermissionError"
                 "[Errno 13] Permission denied: '/locked/a.txt'"),
          guarded_world).
Proof.
  eexists. split; [reflexivity|]. split; [reflexivity|]. split.
  - exists "a", ".txt". repeat split; [discriminate|cbn; auto].
  - reflexivity.
Qed.

(** C5, amended: for an existing directory in which the stat of no entry
    with a listed extension raises, the answer lists exactly the immediate
    entries whose extension is, without regard to case, one of [.txt],
    [.md], [.pdf], in the order of the directory; whether an entry is itself
    a directory plays no part in the test and is only reported in
    [is_dir]. *)
Theorem list_directory_filters_by_suffix (w : World)
        (req : ListDirectoryRequest.t) (nd : node) (names : list string) :
  let directory := Pathlib.parse (ListDirectoryRequest.path req) in
  fs w (Pathlib.str directory) = Stat nd ->
  nd_listdir nd = inr names ->
  (forall n, In n names -> has_doc_extension n ->
             Os.stat_raises (fs w (Pathlib.str (Pathlib.child directory n)))
             = false) ->
  exists files,
    list_directory req w
    = (inr (ListDirectoryResult.mk (Pathlib.str directory) files), w)
    /\ files
       = map (entry_of w directory)
             (filter (fun n => suffix_ok (Pathlib.child directory n)) names)
    /\ (forall e,
          In e files <->
          exists n, In n names /\ has_doc_extension n
                    /\ e = entry_of w directory n).
Proof.
  intros directory Hfs Hls Hstat.
  eexists. split; [|split; [reflexivity|]].
  - unfold list_directory. fold directory. run_os.
    rewrite Hfs. cbn. rewrite Hfs, Hls. cbn.
    rewrite list_directory_files_run; [reflexivity|].
    intros n Hn Hok. apply Hstat; [exact Hn|].
    now apply (suffix_ok_iff directory).
  - intros e. rewrite in_map_iff. split.
    + intros (n & <- & Hin). apply filter_In in Hin as [Hin Hok].
      exists n. repeat split; [exact Hin|now apply (suffix_ok_iff directory)].
    + intros (n & Hin & Hext & ->). exists n. split; [reflexivity|].
      apply filter_In. split; [exact Hin|now apply suffix_ok_iff].
Qed.

Lemma list_directory_filters_by_suffix_witness :
  exists files,
    list_directory (ListDirectoryRequest.mk "/books/") books_world
    = (inr (ListDirectoryResult.mk "/books" files), books_world)
    /\ files
       = [ DirectoryEntry.mk "a.txt" "/books/a.txt" false;
           DirectoryEntry.mk "B.MD" "/books/B.MD" false;
           DirectoryEntry.mk "notes.md" "/books/notes.md" true;
           DirectoryEntry.mk "scan.Pdf" "/books/scan.Pdf" false;
           DirectoryEntry.mk "empty.txt" "/books/empty.txt" false ]
    /\ (forall e,
          In e files <->
          exists n,
            In n ["a.txt"; "B.MD"; "notes.md"; "draft.docx"; ".txt";
                  "scan.Pdf"; "README"; "empty.txt"]
            /\ has_doc_extension n
            /\ e = entry_of books_world (Pathlib.parse "/books/") n).
Proof.
  apply (list_directory_filters_by_suffix books_world
           (ListDirectoryRequest.mk "/books/")
           (directory_of "/books"
              ["a.txt"; "B.MD"; "notes.md"; "draft.docx"; ".txt";
               "scan.Pdf"; "README"; "empty.txt"])
           ["a.txt"; "B.MD"; "notes.md"; "draft.docx"; ".txt";
            "scan.Pdf"; "README"; "empty.txt"] eq_refl eq_refl).
  intros n Hn _. cbn in Hn.
  repeat (destruct Hn as [<-|Hn]; [reflexivity|]). contradiction.
Defined.

(** ** Paths that do not exist *)




(** ** The summaries table *)

Section Upsert.

Import Sql.
Implicit Types (t : table) (r : SummaryRow.t) (k : string).

Lemma same_key_true k r :
  same_key k r = true <-> SummaryRow.document_id r = k.
Proof. unfold same_key. apply String.eqb_eq. Qed.

Lemma select_absent k t :
  ~ In k (map SummaryRow.document_id t) -> select_by_id k t = [].
Proof.
  induction t as [|r t IH]; cbn; [reflexivity|]. intros Hnot.
  destruct (same_key k r) eqn:Hk.
  - apply same_key_true in Hk. tauto.
  - apply IH. tauto.
Qed.

(** Under the primary key, a key selects at most one row. *)
Lemma pk_unique_select k t :
  pk_unique t -> (List.length (select_by_id k t) <= 1)%nat.
Proof.
  unfold pk_unique. induction t as [|r t IH]; cbn; [lia|].
  intros Hnd. inversion Hnd as [|? ? Hnot Hnd']; subst.
  destruct (same_key k r) eqn:Hk.
  - apply same_key_true in Hk. subst k.
    pose proof (select_absent _ _ Hnot) as Hnone.
    unfold select_by_id in Hnone. rewrite Hnone. cbn. lia.
  - apply IH, Hnd'.
Qed.

Lemma delete_no_key k t : existsb (same_key k) (delete_by_id k t) = false.
Proof.
  unfold delete_by_id. induction t as [|r t IH]; cbn; [reflexivity|].
  destruct (same_key k r) eqn:Hk; cbn; [exact IH|]. now rewrite Hk, IH.
Qed.

Lemma delete_keys k t :
  forall k', In k' (map SummaryRow.document_id (delete_by_id k t)) ->
             k' <> k /\ In k' (map SummaryRow.document_id t).
Proof.
  intros k' Hin. apply in_map_iff in Hin as (r & <- & Hr).
  apply filter_In in Hr as [Hr Hneq]. split.
  - intros Heq. apply same_key_true in Heq. rewrite Heq in Hneq. discriminate.
  - now apply in_map.
Qed.

Lemma pk_unique_delete k t : pk_unique t -> pk_unique (delete_by_id k t).
Proof.
  unfold pk_unique, delete_by_id. induction t as [|r t IH]; cbn; [auto|].
  intros Hnd. inversion Hnd as [|? ? Hnot Hnd']; subst.
  destruct (same_key k r); cbn; [now apply IH|].
  constructor; [|now apply IH].
  intros Hin. apply Hnot. now apply (delete_keys k t).
Qed.

(** INSERT OR REPLACE never meets the key it inserts: it always succeeds,
    whatever the table holds. *)
Lemma insert_or_replace_rows_ok t r :
  insert_or_replace_rows t r
  = inr (delete_by_id (SummaryRow.document_id r) t ++ [r])%list.
Proof.
  unfold insert_or_replace_rows, insert_rows.
  now rewrite delete_no_key.
Qed.

Lemma pk_unique_upsert t r :
  pk_unique t -> pk_unique (delete_by_id (SummaryRow.document_id r) t ++ [r])%list.
Proof.
  intros Hpk. unfold pk_unique. rewrite map_app. apply NoDup_app.
  - now apply pk_unique_delete.
  - cbn. constructor; [tauto|constructor].
  - intros k Hin [<-|[]]. now apply delete_keys in Hin.
Qed.

(** Selecting the key just written yields the new row alone. *)
Lemma select_upsert_same t r :
  select_by_id (SummaryRow.document_id r)
               (delete_by_id (SummaryRow.document_id r) t ++ [r])%list = [r].
Proof.
  unfold select_by_id. rewrite filter_app. cbn.
  replace (same_key (SummaryRow.document_id r) r) with true
    by (symmetry; now apply same_key_true).
  fold (select_by_id (SummaryRow.document_id r)
                     (delete_by_id (SummaryRow.document_id r) t)).
  rewrite select_absent; [reflexivity|].
  intros Hin. now apply delete_keys in Hin.
Qed.

(** Selecting another key is not affected by the write. *)
Lemma select_upsert_other k t r :
  SummaryRow.document_id r <> k ->
  select_by_id k (delete_by_id (SummaryRow.document_id r) t ++ [r])%list
  = select_by_id k t.
Proof.
  intros Hneq. unfold select_by_id. rewrite filter_app. cbn.
  replace (same_key k r) with false
    by (symmetry; apply String.eqb_neq; exact Hneq).
  rewrite app_nil_r. unfold delete_by_id.
  induction t as [|x t IH]; cbn; [reflexivity|].
  destruct (same_key (SummaryRow.document_id r) x) eqn:Hx; cbn.
  - apply same_key_true in Hx.
    replace (same_key k x) with false; [exact IH|].
    symmetry. apply String.eqb_neq. congruence.
  - now rewrite IH.
Qed.

(** One call of the handler on a world whose table exists. *)
Lemma save_summary_to_db_ok (w : World) t (req : SaveSummaryRequest.t) :
  summaries w = Some t ->
  save_summary_to_db req w
  = (inr (SaveResult.mk (SaveSummaryRequest.document_id req)
                        (SaveSummaryRequest.filename req)
                        (SaveSummaryRequest.status req) true),
     mkWorld (fs w)
             (Some (delete_by_id (SaveSummaryRequest.document_id req) t
                    ++ [row_of req])%list)).
Proof.
  intros Ht. unfold save_summary_to_db, bind, insert_or_replace, ret.
  now rewrite Ht, insert_or_replace_rows_ok.
Qed.

(** A sequence of saves: every call succeeds, the key stays unique, and
    each key selects the row of the last request that carried it. *)
Lemma save_all_ok (reqs : list SaveSummaryRequest.t) :
  forall (w : World) t,
    summaries w = Some t ->
    pk_unique t ->
    exists results t',
      save_all reqs w = (inr results, mkWorld (fs w) (Some t'))
      /\ List.length results = List.length reqs
      /\ pk_unique t'
      /\ (forall k,
            select_by_id k t'
            = match last_save k reqs with
              | Some req => [row_of req]
              | None => select_by_id k t
              end).
Proof.
  induction reqs as [|req reqs IH]; intros w t Ht Hpk.
  - exists [], t. destruct w as [f s]; cbn in *; subst. auto.
  - cbn [save_all]. unfold bind at 1.
    rewrite (save_summary_to_db_ok w t req Ht).
    set (t1 := (delete_by_id (SaveSummaryRequest.document_id req) t
                ++ [row_of req])%list).
    destruct (IH (mkWorld (fs w) (Some t1)) t1 eq_refl
                 (pk_unique_upsert t (row_of req) Hpk))
      as (results & t' & Hrun & Hlen & Hpk' & Hsel).
    unfold bind, ret. rewrite Hrun. cbn [fs].
    eexists _, t'. split; [reflexivity|]. split; [cbn; now rewrite Hlen|].
    split; [exact Hpk'|].
    intros k. rewrite Hsel. cbn [last_save].
    destruct (last_save k reqs); [reflexivity|].
    destruct (String.eqb_spec (SaveSummaryRequest.document_id req) k) as [<-|Hneq].
    + apply (select_upsert_same t (row_of req)).
    + apply (select_upsert_other k t (row_of req) Hneq).
Qed.

End Upsert.

(** The answers of a sequence of saves echo the requests. *)
Lemma save_all_results (reqs : list SaveSummaryRequest.t) :
  forall (w w' : World) results,
    save_all reqs w = (inr results, w') ->
    results
    = map (fun req =>
             SaveResult.mk (SaveSummaryRequest.document_id req)
                           (SaveSummaryRequest.filename req)
                           (SaveSummaryRequest.status req) true) reqs.
Proof.
  induction reqs as [|req reqs IH]; intros w w' results.
  - cbn. intros H. now injection H as <-.
  - cbn [save_all map]. unfold bind at 1.
    unfold save_summary_to_db, bind, ret at 1.
    destruct (Sql.insert_or_replace (row_of req) w) as [[e|[]] w1];
      [discriminate|].
    unfold bind, ret.
    destruct (save_all reqs w1) as [[e|rs] w2] eqn:Hrest; [discriminate|].
    intros H. injection H as <- _. f_equal. exact (IH _ _ _ Hrest).
Qed.

(** [last_save] finds a request of the sequence that carries the key. *)
Lemma last_save_spec (k : string) (reqs : list SaveSummaryRequest.t)
      (req : SaveSummaryRequest.t) :
  last_save k reqs = Some req ->
  SaveSummaryRequest.document_id req = k /\ In req reqs.
Proof.
  induction reqs as [|r0 reqs IH]; cbn; [discriminate|].
  destruct (last_save k reqs) as [r1|].
  - intros H. injection H as <-. destruct (IH eq_refl). auto.
  - destruct (String.eqb_spec (SaveSummaryRequest.document_id r0) k);
      [|discriminate].
    intros H. injection H as <-. auto.
Qed.

(** C6: on a store whose table exists and respects the primary key, after
    any sequence of saves every save has succeeded and answered with the
    fields of its request, each [document_id] selects at most one row, and
    that row holds the [document_id], [filename], [summary] and [status]
    of the last request with that id (or is the earlier row, when no
    request carried the id); INSERT OR REPLACE cannot fail on the key,
    whatever the table holds. *)
Theorem summaries_one_row_per_id (w : World) (t0 : table)
        (reqs : list SaveSummaryRequest.t) :
  summaries w = Some t0 ->
  Sql.pk_unique t0 ->
  exists results t',
    save_all reqs w = (inr results, mkWorld (fs w) (Some t'))
    /\ results
       = map (fun req =>
                SaveResult.mk (SaveSummaryRequest.document_id req)
                              (SaveSummaryRequest.filename req)
                              (SaveSummaryRequest.status req) true) reqs
    /\ Sql.pk_unique t'
    /\ (forall k, (List.length (Sql.select_by_id k t') <= 1)%nat)
    /\ (forall k,
          Sql.select_by_id k t'
          = match last_save k reqs with
            | Some req =>
                [ {| SummaryRow.document_id := k;
                     SummaryRow.filename := SaveSummaryRequest.filename req;
                     SummaryRow.summary := SaveSummaryRequest.summary req;
                     SummaryRow.status := SaveSummaryRequest.status req |} ]
            | None => Sql.select_by_id k t0
            end)
    /\ (forall k req,
          last_save k reqs = Some req ->
          SaveSummaryRequest.document_id req = k /\ In req reqs)
    /\ (forall t r, exists t1, Sql.insert_or_replace_rows t r = inr t1).
Proof.
  intros Ht Hpk.
  destruct (save_all_ok reqs w t0 Ht Hpk)
    as (results & t' & Hrun & Hlen & Hpk' & Hsel).
  pose proof (fun k req => last_save_spec k reqs req) as Hlast.
  exists results, t'. split; [exact Hrun|].
  split; [exact (save_all_results reqs _ _ _ Hrun)|].
  split; [exact Hpk'|]. split; [intros k; now apply pk_unique_select|].
  split; [|split; [exact Hlast|]].
  - intros k. rewrite Hsel.
    destruct (last_save k reqs) as [req|] eqn:E; [|reflexivity].
    destruct (Hlast k req E) as [<- _]. reflexivity.
  - intros t r. eexists. apply insert_or_replace_rows_ok.
Qed.

Lemma summaries_one_row_per_id_witness :
  exists results t',
    save_all two_saves_of_d1 books_world
    = (inr results, mkWorld books_fs (Some t'))
    /\ results
       = [ SaveResult.mk "d1" "a.txt" "failed" true;
           SaveResult.mk "d2" "B.MD" "completed" true;
           SaveResult.mk "d1" "a.txt" "completed" true ]
    /\ Sql.pk_unique t'
    /\ (forall k, (List.length (Sql.select_by_id k t') <= 1)%nat)
    /\ (forall k,
          Sql.select_by_id k t'
          = match last_save k two_saves_of_d1 with
            | Some req =>
                [ {| SummaryRow.document_id := k;
                     SummaryRow.filename := SaveSummaryRequest.filename req;
                     SummaryRow.summary := SaveSummaryRequest.summary req;
                     SummaryRow.status := SaveSummaryRequest.status req |} ]
            | None => Sql.select_by_id k []
            end)
    /\ (forall k req,
          last_save k two_saves_of_d1 = Some req ->
          SaveSummaryRequest.document_id req = k /\ In req two_saves_of_d1)
    /\ (forall t r, exists t1, Sql.insert_or_replace_rows t r = inr t1).
Proof.
  apply (summaries_one_row_per_id books_world [] two_saves_of_d1 eq_refl).
  constructor.
Defined.

Example two_saves_of_d1_table :
  summaries (snd (save_all two_saves_of_d1 books_world))
  = Some [ SummaryRow.mk "d2" "B.MD" "other document" "completed";
           SummaryRow.mk "d1" "a.txt" "second summary" "completed" ].
Proof. reflexivity. Qed.

(** ** The request model of save_summary_to_db *)

(** The request model accepts every string as [status]. *)
Lemma validate_any_status (d f s st : string) :
  Schema.validate_SaveSummaryRequest
    [ ("document_id", Schema.JString d); ("filename", Schema.JString f);
      ("summary", Schema.JString s); ("status", Schema.JString st) ]
  = Some (SaveSummaryRequest.mk d f s st).
Proof. reflexivity. Qed.

(** A body without [status] is refused before the handler runs. *)
Example missing_status_is_refused :
  post_save_summary_to_db
    [ ("document_id", Schema.JString "d1"); ("filename", Schema.JString "a.txt");
      ("summary", Schema.JString "a summary") ] books_world
  = (inl RequestValidationError, books_world).
Proof. reflexivity. Qed.

(** C8 (the code at the input where it departs from the claim): a body
    whose [status] is ["bogus"], a value outside the advertised
    [completed | failed], passes the request model, reaches the handler, is
    answered with [saved = true] and is stored. *)
Theorem status_outside_enum_is_stored :
  Py.mem "bogus" mcp_tools_status_enum = false
  /\ Schema.validate_SaveSummaryRequest (body_with_status "bogus")
     = Some (SaveSummaryRequest.mk "d1" "a.txt" "a summary" "bogus")
  /\ post_save_summary_to_db (body_with_status "bogus") books_world
     = (inr (SaveResult.mk "d1" "a.txt" "bogus" true),
        mkWorld books_fs
                (Some [SummaryRow.mk "d1" "a.txt" "a summary" "bogus"])).
Proof. repeat split. Qed.



(** * Further properties of the handlers *)

(** ** read_document_chunk: effects and errors *)

(** X1: [read_document_chunk] is read-only: whatever the request and
    whatever the outcome (an answer or an exception), the world after the
    call is the world before it. *)
Theorem read_document_chunk_read_only (req : ReadDocumentChunkRequest.t)
        (w : World) :
  snd (read_document_chunk req w) = w.
Proof.
  destruct (fs w (Pathlib.str (Pathlib.parse (ReadDocumentChunkRequest.path req))))
    as [nd|errno e|] eqn:Hfs.
  - destruct (nd_read_text nd) as [e|t] eqn:Hrd.
    + unfold read_document_chunk. run_os. rewrite Hfs. cbn.
      now rewrite Hfs, Hrd.
    + rewrite (read_document_chunk_run w req nd t Hfs Hrd).
      now destruct (_ && _).
  - unfold read_document_chunk. run_os. rewrite Hfs. cbn.
    now destruct (Os.ignore_error errno).
  - unfold read_document_chunk. run_os. now rewrite Hfs.
Qed.

(** X2: when the path exists but reading it raises (a directory, a file
    without read permission), the handler catches the exception and
    raises [HTTPException] 500 whose detail is ["Error reading file: "]
    followed by [str(e)]; the world is left as it was. *)
Theorem read_error_is_500 (w : World) (req : ReadDocumentChunkRequest.t)
        (nd : node) (err : pyerr) :
  fs w (Pathlib.str (Pathlib.parse (ReadDocumentChunkRequest.path req))) = Stat nd ->
  nd_read_text nd = inl err ->
  read_document_chunk req w
  = (inl (HTTPException 500 ("Error reading file: " ++ err_str err)), w).
Proof.
  intros Hfs Hrd. unfold read_document_chunk. run_os. rewrite Hfs. cbn.
  now rewrite Hfs, Hrd.
Qed.

Lemma read_error_is_500_witness :
  read_document_chunk (ReadDocumentChunkRequest.mk "/books/notes.md" 0 2000)
                      books_world
  = (inl (HTTPException 500
            "Error reading file: [Errno 21] Is a directory: '/books/notes.md'"),
     books_world).
Proof.
  exact (read_error_is_500 books_world
           (ReadDocumentChunkRequest.mk "/books/notes.md" 0 2000)
           (directory_of "/books/notes.md" [])
           (mkErr "IsADirectoryError"
                  "[Errno 21] Is a directory: '/books/notes.md'")
           eq_refl eq_refl).
Defined.

(** ** read_document_chunk: the window it returns *)

Lemma len_slice_le {A : Type} (s : list A) (a b : Z) :
  Py.len (Py.slice s a b) <= Py.len s.
Proof.
  unfold Py.slice. destruct (_ <? _).
  - unfold Py.len. rewrite length_firstn, length_skipn. lia.
  - apply len_nonneg.
Qed.

(** X3: the content of an answer is never longer than the document, and,
    when the requested [chunk_size] is not negative, never longer than
    [chunk_size]. *)
Theorem content_length_bounded (w w' : World)
        (req : ReadDocumentChunkRequest.t) (r : ChunkResult.t) :
  read_document_chunk req w = (inr r, w') ->
  0 <= Py.len (ChunkResult.content r) <= ChunkResult.total_length r
  /\ (0 <= ReadDocumentChunkRequest.chunk_size req ->
      Py.len (ChunkResult.content r) <= ReadDocumentChunkRequest.chunk_size req).
Proof.
  intros Hrun.
  destruct (read_document_chunk_inv _ _ _ _ Hrun) as (nd & t & Hfs & Hrd & -> & Hno).
  rewrite (read_document_chunk_ok w req nd t Hfs Hrd Hno) in Hrun.
  injection Hrun as <-. cbn. pose proof (len_nonneg t) as HL.
  split; [split; [apply len_nonneg|apply len_slice_le]|].
  intros Hcs. rewrite len_slice_inside by lia. lia.
Qed.

Lemma content_length_bounded_witness :
  0 <= Py.len (text_of_string "rld") <= 11
  /\ (0 <= 4 -> Py.len (text_of_string "rld") <= 4).
Proof.
  exact (content_length_bounded books_world books_world
           (ReadDocumentChunkRequest.mk "/books/a.txt" 8 4) _ eq_refl).
Defined.

(** X4: [eof] is true exactly when [offset + chunk_size] reaches the length
    of the document, [offset] being the clamped offset of the answer.  An
    answer without [eof] to a request with a non-negative [chunk_size]
    carries exactly [chunk_size] characters, and its [next_offset] is
    [offset + chunk_size], still inside the document. *)
Theorem not_eof_is_full_chunk (w w' : World)
        (req : ReadDocumentChunkRequest.t) (r : ChunkResult.t) :
  let chunk_size := ReadDocumentChunkRequest.chunk_size req in
  read_document_chunk req w = (inr r, w') ->
  (ChunkResult.eof r = true <->
   ChunkResult.total_length r <= ChunkResult.offset r + chunk_size)
  /\ (0 <= chunk_size -> ChunkResult.eof r = false ->
      Py.len (ChunkResult.content r) = chunk_size
      /\ ChunkResult.next_offset r = Some (ChunkResult.offset r + chunk_size)
      /\ ChunkResult.offset r + chunk_size < ChunkResult.total_length r).
Proof.
  intros chunk_size Hrun.
  destruct (read_document_chunk_inv _ _ _ _ Hrun) as (nd & t & Hfs & Hrd & -> & Hno).
  rewrite (read_document_chunk_ok w req nd t Hfs Hrd Hno) in Hrun.
  injection Hrun as <-. cbn. fold chunk_size. pose proof (len_nonneg t) as HL.
  set (start := Z.max 0 (ReadDocumentChunkRequest.offset req)).
  destruct (Z.geb_spec (Z.min (Py.len t) (start + chunk_size)) (Py.len t))
    as [Hge|Hlt]; cbn.
  - split; [split; [lia|reflexivity]|discriminate].
  - split; [split; [discriminate|lia]|].
    intros Hcs _. rewrite Z.min_r in * by lia.
    rewrite len_slice_inside by (subst start; lia).
    repeat split; lia.
Qed.

Lemma not_eof_is_full_chunk_witness :
  (false = true <-> 11 <= 5 + 4)
  /\ (0 <= 4 -> false = false ->
      Py.len (text_of_string " wor") = 4 /\ Some 9 = Some (5 + 4) /\ 5 + 4 < 11).
Proof.
  exact (not_eof_is_full_chunk books_world books_world
           (ReadDocumentChunkRequest.mk "/books/a.txt" 5 4) _ eq_refl).
Defined.

Lemma firstn_plus {A : Type} (x y : nat) (u : list A) :
  firstn (x + y) u = (firstn x u ++ firstn y (skipn x u))%list.
Proof.
  revert u. induction x as [|x IH]; intros [|h u]; cbn;
    try reflexivity.
  - now rewrite firstn_nil.
  - now rewrite IH.
Qed.

(** X5: two adjacent reads compose: for a non-negative offset [a] and
    non-negative sizes [n] and [m], the content read at [a] with size [n]
    followed by the content read at [a + n] with size [m] is the content
    read at [a] with size [n + m]. *)
Theorem adjacent_chunks_compose (w : World) (path : string) (a n m : Z)
        (nd : node) (t : text) :
  fs w (Pathlib.str (Pathlib.parse path)) = Stat nd ->
  nd_read_text nd = inr t ->
  0 <= a -> 0 <= n -> 0 <= m ->
  exists r1 r2 r12,
    read_document_chunk (ReadDocumentChunkRequest.mk path a n) w = (inr r1, w)
    /\ read_document_chunk (ReadDocumentChunkRequest.mk path (a + n) m) w
       = (inr r2, w)
    /\ read_document_chunk (ReadDocumentChunkRequest.mk path a (n + m)) w
       = (inr r12, w)
    /\ (ChunkResult.content r1 ++ ChunkResult.content r2)%list
       = ChunkResult.content r12.
Proof.
  intros Hfs Hrd Ha Hn Hm. pose proof (len_nonneg t) as HL.
  do 3 eexists.
  split; [apply (read_document_chunk_inside w
                   (ReadDocumentChunkRequest.mk path a n) nd t Hfs Hrd);
          cbn; lia|].
  split; [apply (read_document_chunk_inside w
                   (ReadDocumentChunkRequest.mk path (a + n) m) nd t Hfs Hrd);
          cbn; lia|].
  split; [apply (read_document_chunk_inside w
                   (ReadDocumentChunkRequest.mk path a (n + m)) nd t Hfs Hrd);
          cbn; lia|].
  cbn. rewrite !Z.max_r by lia.
  rewrite !slice_inside by lia.
  destruct (Z.le_gt_cases (a + n) (Py.len t)) as [Hin|Hout].
  - rewrite (Z.min_r (Py.len t) (a + n)) by lia.
    set (e := Z.min (Py.len t) (a + (n + m))).
    replace (Z.min (Py.len t) (a + n + m)) with e by (subst e; lia).
    assert (He : a + n <= e <= Py.len t) by (subst e; lia).
    replace (Z.to_nat (e - a))
      with (Z.to_nat (a + n - a) + Z.to_nat (e - (a + n)))%nat by lia.
    rewrite firstn_plus, skipn_skipn. do 3 f_equal. lia.
  - rewrite !Z.min_l by lia.
    rewrite (skipn_all2 (n := Z.to_nat (a + n))) by (unfold Py.len in *; lia).
    now rewrite firstn_nil, app_nil_r.
Qed.

Lemma adjacent_chunks_compose_witness :
  exists r1 r2 r12,
    read_document_chunk (ReadDocumentChunkRequest.mk "/books/a.txt" 2 3)
                        books_world = (inr r1, books_world)
    /\ read_document_chunk (ReadDocumentChunkRequest.mk "/books/a.txt" (2 + 3) 20)
                           books_world = (inr r2, books_world)
    /\ read_document_chunk (ReadDocumentChunkRequest.mk "/books/a.txt" 2 (3 + 20))
                           books_world = (inr r12, books_world)
    /\ (ChunkResult.content r1 ++ ChunkResult.content r2)%list
       = ChunkResult.content r12.
Proof.
  apply (adjacent_chunks_compose books_world "/books/a.txt" 2 3 20
           (regular_file "/books/a.txt" (text_of_string "hello world"))
           (text_of_string "hello world")); reflexivity || lia.
Defined.

(** The overflow test of the division, for a negative end index. *)
Lemma overflow_negative_end (e L : Z) :
  e < 0 -> 0 <= L ->
  (L >? 0) && Py.true_div_overflows e L
  = (0 <? L) && (Py.float_overflow_bound * L <=? - e).
Proof.
  intros He HL. unfold Py.true_div_overflows.
  rewrite (Z.abs_eq L) by exact HL. rewrite (Z.abs_neq e) by lia.
  now rewrite Z.gtb_ltb.
Qed.

(** X6: when [max(0, offset) + chunk_size] is negative, two things can
    happen.  On a non-empty document, when the absolute value of that
    number is at least [(2^1024 - 2^970) * total_length], the division of
    [progress] raises [OverflowError], which leaves the handler.
    Otherwise the handler answers: the answer has no [eof], its
    [next_offset] is that negative number, and its content is the
    document from the clamped offset up to the position that lies that
    many characters before the end of the document, which makes
    [max(0, total_length + chunk_size)] characters. *)
Theorem negative_end_answer (w : World) (req : ReadDocumentChunkRequest.t)
        (nd : node) (t : text) :
  let start := Z.max 0 (ReadDocumentChunkRequest.offset req) in
  let chunk_size := ReadDocumentChunkRequest.chunk_size req in
  fs w (Pathlib.str (Pathlib.parse (ReadDocumentChunkRequest.path req))) = Stat nd ->
  nd_read_text nd = inr t ->
  start + chunk_size < 0 ->
  (0 < Py.len t ->
   Py.float_overflow_bound * Py.len t <= - (start + chunk_size) ->
   read_document_chunk req w
   = (inl (PyError "OverflowError"
                   "integer division result too large for a float"), w))
  /\ (Py.len t = 0
      \/ - (start + chunk_size) < Py.float_overflow_bound * Py.len t ->
      exists r,
        read_document_chunk req w = (inr r, w)
        /\ ChunkResult.eof r = false
        /\ ChunkResult.next_offset r = Some (start + chunk_size)
        /\ ChunkResult.content r
           = firstn (Z.to_nat (Py.len t + chunk_size))
                    (skipn (Z.to_nat start) t)
        /\ Py.len (ChunkResult.content r) = Z.max 0 (Py.len t + chunk_size)).
Proof.
  intros start chunk_size Hfs Hrd Hneg. pose proof (len_nonneg t) as HL.
  pose proof (read_document_chunk_run w req nd t Hfs Hrd) as Hrun.
  cbv zeta in Hrun. fold start chunk_size in Hrun.
  rewrite (Z.min_r (Py.len t) (start + chunk_size)) in Hrun by lia.
  rewrite (overflow_negative_end _ _ Hneg HL) in Hrun.
  split.
  - intros Hpos Hbig. rewrite Hrun.
    destruct (Z.ltb_spec 0 (Py.len t)); [|lia].
    destruct (Z.leb_spec (Py.float_overflow_bound * Py.len t)
                         (- (start + chunk_size))); [reflexivity|lia].
  - intros Hsmall.
    assert (Hno : (0 <? Py.len t)
                  && (Py.float_overflow_bound * Py.len t
                      <=? - (start + chunk_size)) = false).
    { destruct (Z.ltb_spec 0 (Py.len t)); [|reflexivity].
      destruct (Z.leb_spec (Py.float_overflow_bound * Py.len t)
                           (- (start + chunk_size))); [lia|reflexivity]. }
    rewrite Hno in Hrun. eexists. split; [exact Hrun|]. cbn.
    destruct (Z.geb_spec (start + chunk_size) (Py.len t)) as [|_]; [lia|]. cbn.
    assert (Hs : 0 <= start) by (subst start; lia).
    rewrite slice_negative_stop by lia.
    assert (Hc : Py.slice t start (Z.max 0 (start + chunk_size + Py.len t))
                 = firstn (Z.to_nat (Py.len t + chunk_size))
                          (skipn (Z.to_nat start) t)).
    { rewrite slice_inside by lia. f_equal. lia. }
    rewrite Hc. repeat split.
    unfold Py.len in *. rewrite length_firstn, length_skipn. lia.
Qed.

Lemma negative_end_answer_witness :
  (0 < 11 ->
   Py.float_overflow_bound * 11 <= - (2 + - 10 ^ 400) ->
   read_document_chunk
     (ReadDocumentChunkRequest.mk "/books/a.txt" 2 (- 10 ^ 400)) books_world
   = (inl (PyError "OverflowError"
                   "integer division result too large for a float"),
      books_world))
  /\ (11 = 0 \/ - (2 + - 10 ^ 400) < Py.float_overflow_bound * 11 ->
      exists r,
        read_document_chunk
          (ReadDocumentChunkRequest.mk "/books/a.txt" 2 (- 10 ^ 400))
          books_world = (inr r, books_world)
        /\ ChunkResult.eof r = false
        /\ ChunkResult.next_offset r = Some (2 + - 10 ^ 400)
        /\ ChunkResult.content r
           = firstn (Z.to_nat (11 + - 10 ^ 400))
                    (skipn (Z.to_nat 2) (text_of_string "hello world"))
        /\ Py.len (ChunkResult.content r) = Z.max 0 (11 + - 10 ^ 400)).
Proof.
  apply (negative_end_answer books_world
           (ReadDocumentChunkRequest.mk "/books/a.txt" 2 (- 10 ^ 400))
           (regular_file "/books/a.txt" (text_of_string "hello world"))
           (text_of_string "hello world")); reflexivity.
Defined.

Example overflow_at_minus_ten_to_400 :
  read_document_chunk
    (ReadDocumentChunkRequest.mk "/books/a.txt" 0 (- 10 ^ 400)) books_world
  = (inl (PyError "OverflowError"
                  "integer division result too large for a float"),
     books_world).
Proof. vm_compute. reflexivity. Qed.

Example answer_at_minus_five :
  fst (read_document_chunk
         (ReadDocumentChunkRequest.mk "/books/a.txt" 2 (-5)) books_world)
  = inr {| ChunkResult.path := "/books/a.txt";
           ChunkResult.filename := "a.txt";
           ChunkResult.offset := 2;
           ChunkResult.next_offset := Some (-3);
           ChunkResult.chunk_size := 6;
           ChunkResult.total_length := 11;
           ChunkResult.progress := PercentOf (-3) 11;
           ChunkResult.eof := false;
           ChunkResult.content := text_of_string "llo wo" |}.
Proof. reflexivity. Qed.

(** X7: when [max(0, offset) + chunk_size] is not negative, the content is
    a window of the document that starts at the answer's [offset]: the
    [i]-th character of the content is the [(offset + i)]-th character of
    the document. *)
Theorem content_is_window (w : World) (req : ReadDocumentChunkRequest.t)
        (nd : node) (t : text) :
  fs w (Pathlib.str (Pathlib.parse (ReadDocumentChunkRequest.path req))) = Stat nd ->
  nd_read_text nd = inr t ->
  0 <= Z.max 0 (ReadDocumentChunkRequest.offset req)
       + ReadDocumentChunkRequest.chunk_size req ->
  exists r,
    read_document_chunk req w = (inr r, w)
    /\ forall i : nat,
         (i < List.length (ChunkResult.content r))%nat ->
         nth_error (ChunkResult.content r) i
         = nth_error t (Z.to_nat (ChunkResult.offset r) + i).
Proof.
  intros Hfs Hrd Hnn. pose proof (len_nonneg t) as HL.
  eexists. split; [apply (read_document_chunk_inside w req nd t Hfs Hrd Hnn)|].
  cbn. rewrite slice_inside by lia.
  intros i Hi. rewrite length_firstn in Hi.
  rewrite nth_error_firstn, nth_error_skipn.
  destruct (Nat.ltb_spec i
              (Z.to_nat (Z.min (Py.len t)
                               (Z.max 0 (ReadDocumentChunkRequest.offset req)
                                + ReadDocumentChunkRequest.chunk_size req)
                         - Z.max 0 (ReadDocumentChunkRequest.offset req))));
    [reflexivity|lia].
Qed.

Lemma content_is_window_witness :
  exists r,
    read_document_chunk (ReadDocumentChunkRequest.mk "/books/a.txt" 6 3)
                        books_world = (inr r, books_world)
    /\ forall i : nat,
         (i < List.length (ChunkResult.content r))%nat ->
         nth_error (ChunkResult.content r) i
         = nth_error (text_of_string "hello world")
                     (Z.to_nat (ChunkResult.offset r) + i).
Proof.
  apply (content_is_window books_world
           (ReadDocumentChunkRequest.mk "/books/a.txt" 6 3)
           (regular_file "/books/a.txt" (text_of_string "hello world"))
           (text_of_string "hello world")); [reflexivity|reflexivity|cbn; lia].
Defined.

(** X8: a request whose offset is at or past the end of the document, with
    a non-negative [chunk_size], is answered (not refused) with empty
    content, [eof = true] and no [next_offset]; the [offset] of the answer
    is the requested one. *)
Theorem offset_past_end (w : World) (req : ReadDocumentChunkRequest.t)
        (nd : node) (t : text) :
  fs w (Pathlib.str (Pathlib.parse (ReadDocumentChunkRequest.path req))) = Stat nd ->
  nd_read_text nd = inr t ->
  Py.len t <= ReadDocumentChunkRequest.offset req ->
  0 <= ReadDocumentChunkRequest.chunk_size req ->
  exists r,
    read_document_chunk req w = (inr r, w)
    /\ ChunkResult.content r = []
    /\ ChunkResult.chunk_size r = 0
    /\ ChunkResult.eof r = true
    /\ ChunkResult.next_offset r = None
    /\ ChunkResult.offset r = ReadDocumentChunkRequest.offset req.
Proof.
  intros Hfs Hrd Hoff Hcs. pose proof (len_nonneg t) as HL.
  eexists. split;
    [apply (read_document_chunk_inside w req nd t Hfs Hrd); lia|].
  cbn. rewrite (Z.max_r 0 (ReadDocumentChunkRequest.offset req)) by lia.
  rewrite Z.min_l by lia.
  assert (Hempty : Py.slice t (ReadDocumentChunkRequest.offset req) (Py.len t) = []).
  { rewrite slice_to_end by lia. apply skipn_all2. unfold Py.len in *. lia. }
  rewrite Hempty.
  destruct (Z.geb_spec (Py.len t) (Py.len t)) as [_|]; [|lia].
  repeat split.
Qed.

Lemma offset_past_end_witness :
  exists r,
    read_document_chunk (ReadDocumentChunkRequest.mk "/books/a.txt" 11 2000)
                        books_world = (inr r, books_world)
    /\ ChunkResult.content r = []
    /\ ChunkResult.chunk_size r = 0
    /\ ChunkResult.eof r = true
    /\ ChunkResult.next_offset r = None
    /\ ChunkResult.offset r = 11.
Proof.
  apply (offset_past_end books_world
           (ReadDocumentChunkRequest.mk "/books/a.txt" 11 2000)
           (regular_file "/books/a.txt" (text_of_string "hello world"))
           (text_of_string "hello world"));
    [reflexivity|reflexivity|cbn; lia|cbn; lia].
Defined.

(** ** list_directory: effects and errors *)

Lemma is_dir_world (f : Pathlib.Path) (w : World) : snd (Os.is_dir f w) = w.
Proof.
  unfold Os.is_dir, Os.stat, Os.os_error, bind, ret, raise. cbv beta iota.
  destruct (fs w (Pathlib.str f)) as [nd|errno e|]; cbn; try reflexivity.
  now destruct (Os.ignore_error errno).
Qed.

(** The comprehension on any list of paths leaves the world alone, whether
    it ends or raises. *)
Lemma list_directory_files_world (w : World) (entries : list Pathlib.Path) :
  snd (list_directory_files entries w) = w.
Proof.
  induction entries as [|f entries IH]; [reflexivity|].
  cbn [list_directory_files]. destruct (suffix_ok f); [|exact IH].
  unfold bind at 1. pose proof (is_dir_world f w) as Hd.
  destruct (Os.is_dir f w) as [[e|d] w1]; cbn in Hd; subst w1; [reflexivity|].
  unfold bind, ret.
  destruct (list_directory_files entries w) as [[e|files] w2]; exact IH.
Qed.

(** X9: [list_directory] is read-only: whatever the request and whatever
    the outcome, the world after the call is the world before it. *)
Theorem list_directory_read_only (req : ListDirectoryRequest.t) (w : World) :
  snd (list_directory req w) = w.
Proof.
  unfold list_directory. run_os.
  destruct (fs w _) as [nd|errno e|] eqn:Hfs; cbn.
  - rewrite Hfs. destruct (nd_listdir nd) as [e|names]; cbn; [reflexivity|].
    pose proof (list_directory_files_world w
                  (map (Pathlib.child
                          (Pathlib.parse (ListDirectoryRequest.path req))) names))
      as Hw.
    destruct (list_directory_files _ w) as [[e|files] w1]; exact Hw.
  - now destruct (Os.ignore_error errno).
  - reflexivity.
Qed.

(** X10: the handler has no [except] clause around the listing: when the
    path exists but listing it raises (a regular file, a directory
    without read permission), that exception leaves the handler as it is,
    not as an [HTTPException], and the world is left as it was. *)
Theorem listing_error_passes_through (w : World) (req : ListDirectoryRequest.t)
        (nd : node) (err : pyerr) :
  fs w (Pathlib.str (Pathlib.parse (ListDirectoryRequest.path req))) = Stat nd ->
  nd_listdir nd = inl err ->
  list_directory req w = (inl (PyError (err_kind err) (err_str err)), w).
Proof.
  intros Hfs Hls. unfold list_directory. run_os. rewrite Hfs. cbn.
  now rewrite Hfs, Hls.
Qed.

Lemma listing_error_passes_through_witness :
  list_directory (ListDirectoryRequest.mk "/books/a.txt") books_world
  = (inl (PyError "NotADirectoryError"
                  "[Errno 20] Not a directory: '/books/a.txt'"),
     books_world).
Proof.
  exact (listing_error_passes_through books_world
           (ListDirectoryRequest.mk "/books/a.txt")
           (regular_file "/books/a.txt" (text_of_string "hello world"))
           (mkErr "NotADirectoryError"
                  "[Errno 20] Not a directory: '/books/a.txt'")
           eq_refl eq_refl).
Defined.

(** ** list_directory: the suffix test *)

Section SuffixTest.

Implicit Types (s : string) (c : ascii) (i last : Z).

Lemma lower_ascii_idem c : Py.lower_ascii (Py.lower_ascii c) = Py.lower_ascii c.
Proof. destruct c as [[] [] [] [] [] [] [] []]; reflexivity. Qed.

Lemma lower_idem s : Py.lower (Py.lower s) = Py.lower s.
Proof.
  induction s as [|c s IH]; cbn; [reflexivity|].
  now rewrite IH, lower_ascii_idem.
Qed.

Lemma substring_lower s (n m : nat) :
  substring n m (Py.lower s) = Py.lower (substring n m s).
Proof.
  revert n m. induction s as [|c s IH]; intros [|n] [|m]; cbn;
    try reflexivity; try apply IH.
  now rewrite IH.
Qed.

(** The suffix of a lower-cased name is the lower-cased suffix. *)
Lemma suffix_lower (p : Pathlib.Path) (n : string) :
  Pathlib.suffix (Pathlib.child p (Py.lower n))
  = Py.lower (Pathlib.suffix (Pathlib.child p n)).
Proof.
  unfold Pathlib.suffix. rewrite !name_child.
  unfold Py.rfind, Py.strlen, Py.str_from.
  rewrite rfind_from_lower, length_lower.
  destruct (_ && _); [apply substring_lower|reflexivity].
Qed.

Lemma strlen_cons c s : Py.strlen (String c s) = 1 + Py.strlen s.
Proof. unfold Py.strlen. cbn [String.length]. lia. Qed.

(** Where the scan starts and what it starts with do not matter: either no
    character matches and the default comes back, or the result is the same
    position relative to the start. *)
Lemma rfind_from_uniform c s i last i' last' :
  (Py.rfind_from c s i last = last /\ Py.rfind_from c s i' last' = last')
  \/ (Py.rfind_from c s i last - i = Py.rfind_from c s i' last' - i'
      /\ i <= Py.rfind_from c s i last < i + Py.strlen s).
Proof.
  revert i last i' last'.
  induction s as [|a s IH]; intros i last i' last'; [now left|].
  cbn [Py.rfind_from]. rewrite strlen_cons.
  assert (Hlen : 0 <= Py.strlen s) by (unfold Py.strlen; lia).
  destruct (Ascii.eqb a c).
  - right. destruct (IH (i + 1) i (i' + 1) i') as [[-> ->]|[E R]]; lia.
  - destruct (IH (i + 1) last (i' + 1) last') as [[-> ->]|[E R]];
      [now left|right; lia].
Qed.

Lemma rfind_from_absent c s :
  Py.rfind c s = -1 -> forall i last, Py.rfind_from c s i last = last.
Proof.
  unfold Py.rfind. intros H i last.
  destruct (rfind_from_uniform c s 0 (-1) i last) as [[_ E]|[_ R]];
    [exact E|lia].
Qed.

(** X11: the suffix test does not look at the case of the name: two names
    that agree up to the case of their letters are both kept or both
    dropped. *)
Theorem suffix_test_ignores_case (p : Pathlib.Path) (n1 n2 : string) :
  Py.lower n1 = Py.lower n2 ->
  suffix_ok (Pathlib.child p n1) = suffix_ok (Pathlib.child p n2).
Proof.
  assert (Hlow : forall n,
             suffix_ok (Pathlib.child p (Py.lower n))
             = suffix_ok (Pathlib.child p n)).
  { intros n. unfold suffix_ok. now rewrite suffix_lower, lower_idem. }
  intros Heq. rewrite <- (Hlow n1), <- (Hlow n2). now rewrite Heq.
Qed.

Lemma suffix_test_ignores_case_witness :
  suffix_ok (Pathlib.child (Pathlib.parse "/books") "Report.PDF")
  = suffix_ok (Pathlib.child (Pathlib.parse "/books") "rePort.pdf").
Proof.
  exact (suffix_test_ignores_case (Pathlib.parse "/books")
           "Report.PDF" "rePort.pdf" eq_refl).
Defined.

(** X12: a name without a dot is never listed, and neither is a name whose
    only dot is its first character: a file called [.txt] or [.md] has no
    suffix. *)
Theorem dotless_and_hidden_names_dropped (p : Pathlib.Path) (n : string) :
  Py.rfind "."%char n = -1 ->
  suffix_ok (Pathlib.child p n) = false
  /\ suffix_ok (Pathlib.child p (String "."%char n)) = false.
Proof.
  intros Hno. unfold suffix_ok, Pathlib.suffix. rewrite !name_child. split.
  - rewrite Hno. reflexivity.
  - unfold Py.rfind. cbn [Py.rfind_from Ascii.eqb Bool.eqb].
    rewrite (rfind_from_absent _ _ Hno). reflexivity.
Qed.

Lemma dotless_and_hidden_names_dropped_witness :
  suffix_ok (Pathlib.child (Pathlib.parse "/books") "txt") = false
  /\ suffix_ok (Pathlib.child (Pathlib.parse "/books") ".txt") = false.
Proof.
  exact (dotless_and_hidden_names_dropped (Pathlib.parse "/books") "txt"
           eq_refl).
Defined.

End SuffixTest.

(** ** Paths in answers are in normal form *)

Section NormalForm.

Import Pathlib.
Implicit Types (s rest : string) (c : ascii) (p : Path) (parts : list string).

(** [splitroot] by comparisons of characters. *)
Lemma splitroot_other c rest :
  Ascii.eqb c "/"%char = false ->
  splitroot (String c rest) = (EmptyString, String c rest)
  /\ splitroot (String "/"%char (String c rest)) = ("/", String c rest)
  /\ splitroot (String "/"%char (String "/"%char (String c rest)))
     = ("//", String c rest).
Proof.
  destruct c as [[] [] [] [] [] [] [] []]; cbn; intros H;
    try discriminate H; repeat split.
Qed.

Lemma splitroot_root s :
  In (fst (splitroot s)) [EmptyString; "/"; "//"].
Proof.
  destruct s as [|c1 s]; [cbn; auto|].
  destruct (Ascii.eqb c1 "/"%char) eqn:E1.
  - apply Ascii.eqb_eq in E1. subst c1.
    destruct s as [|c2 s]; [cbn; auto|].
    destruct (Ascii.eqb c2 "/"%char) eqn:E2.
    + apply Ascii.eqb_eq in E2. subst c2.
      destruct s as [|c3 s]; [cbn; auto|].
      destruct (Ascii.eqb c3 "/"%char) eqn:E3.
      * apply Ascii.eqb_eq in E3. subst c3. cbn. auto.
      * destruct (splitroot_other c3 s E3) as (_ & _ & ->). cbn. auto.
    + destruct (splitroot_other c2 s E2) as (_ & -> & _). cbn. auto.
  - destruct (splitroot_other c1 s E1) as (-> & _ & _). cbn. auto.
Qed.

Lemma no_slash_cons c s :
  no_slash (String c s) <-> Ascii.eqb c "/"%char = false /\ no_slash s.
Proof.
  unfold no_slash, Py.rfind. cbn [Py.rfind_from]. split.
  - intros H. destruct (Ascii.eqb c "/"%char).
    + destruct (rfind_from_uniform "/"%char s (0 + 1) 0 0 0) as [[E _]|[_ R]]; lia.
    + split; [reflexivity|].
      destruct (rfind_from_uniform "/"%char s (0 + 1) (-1) 0 (-1))
        as [[_ E]|[_ R]]; [exact E|lia].
  - intros [-> H]. now apply rfind_from_absent.
Qed.

Lemma split_slash_single s : no_slash s -> Py.split_slash s = [s].
Proof.
  induction s as [|c s IH]; [reflexivity|].
  intros H. apply no_slash_cons in H as [Hc Hs].
  cbn [Py.split_slash]. now rewrite Hc, (IH Hs).
Qed.

Lemma split_slash_first s rest :
  no_slash s ->
  Py.split_slash (s ++ String "/"%char rest) = s :: Py.split_slash rest.
Proof.
  induction s as [|c s IH]; [reflexivity|].
  intros H. apply no_slash_cons in H as [Hc Hs].
  cbn [append Py.split_slash]. now rewrite Hc, (IH Hs).
Qed.

(** Splitting what was joined gives the components back. *)
Lemma split_join parts :
  parts <> [] -> Forall (fun s => no_slash s) parts ->
  Py.split_slash (Py.join_slash parts) = parts.
Proof.
  unfold Py.join_slash.
  induction parts as [|a [|b parts] IH]; intros Hne Hall; [congruence| |].
  - inversion Hall; subst. now apply split_slash_single.
  - inversion Hall as [|? ? Ha Hall']; subst.
    change (String.concat "/" (a :: b :: parts))
      with (a ++ String "/"%char (String.concat "/" (b :: parts))).
    rewrite split_slash_first by exact Ha.
    now rewrite IH.
Qed.

Lemma split_slash_no_slash s :
  Forall (fun x => no_slash x) (Py.split_slash s).
Proof.
  induction s as [|c s IH]; cbn [Py.split_slash].
  - constructor; [reflexivity|constructor].
  - destruct (Ascii.eqb c "/"%char) eqn:Hc.
    + constructor; [reflexivity|exact IH].
    + destruct (Py.split_slash s) as [|h t].
      * constructor; [|constructor].
        apply no_slash_cons. split; [exact Hc|reflexivity].
      * inversion IH; subst. constructor; [|assumption].
        apply no_slash_cons. split; assumption.
Qed.

Lemma normal_parse s : normal (parse s).
Proof.
  unfold parse. pose proof (splitroot_root s) as Hroot.
  destruct (splitroot s) as [r rel]. split; [exact Hroot|]. cbn.
  apply Forall_forall. intros x Hx. apply filter_In in Hx as [Hx Hk].
  split; [|exact Hk].
  pose proof (split_slash_no_slash rel) as Hall.
  rewrite Forall_forall in Hall. now apply Hall.
Qed.

Lemma normal_child p n :
  normal p -> no_slash n -> keep_part n = true -> normal (child p n).
Proof.
  intros [Hroot Htail] Hn Hk. split; [exact Hroot|]. cbn.
  apply Forall_app. split; [exact Htail|]. constructor; [auto|constructor].
Qed.

(** Parsing the string of a normal path gives the path back. *)
Lemma parse_str p : normal p -> parse (str p) = p.
Proof.
  destruct p as [r parts]. intros [Hroot Hall]. cbn in Hroot, Hall.
  unfold str. cbn [root tail].
  destruct parts as [|a parts].
  - destruct Hroot as [<-|[<-|[<-|[]]]]; reflexivity.
  - assert (Hns : Forall (fun s => no_slash s) (a :: parts)).
    { eapply Forall_impl; [|exact Hall]. now intros x [Hx _]. }
    assert (Hkeep : filter keep_part (a :: parts) = a :: parts).
    { apply forallb_filter_id, forallb_forall. intros x Hx.
      rewrite Forall_forall in Hall. now apply Hall. }
    pose proof (split_join (a :: parts) ltac:(discriminate) Hns) as Hsplit.
    inversion Hall as [|? ? [Ha Hka] _]; subst.
    assert (Hj : exists c rest,
               Py.join_slash (a :: parts) = String c rest
               /\ Ascii.eqb c "/"%char = false).
    { destruct a as [|c a']; [discriminate Hka|].
      apply no_slash_cons in Ha as [Hc _].
      unfold Py.join_slash. destruct parts; cbn; eauto. }
    destruct Hj as (c & rest & Hj & Hc).
    destruct (splitroot_other c rest Hc) as (S0 & S1 & S2).
    unfold parse.
    destruct Hroot as [<-|[<-|[<-|[]]]]; rewrite Hj; cbn [append String.eqb];
      [rewrite S0|rewrite S1|rewrite S2]; rewrite <- Hj, Hsplit, Hkeep;
      reflexivity.
Qed.

End NormalForm.

(** The answer of [list_directory] on a directory that can be listed. *)
Lemma list_directory_ok (w : World) (req : ListDirectoryRequest.t)
      (nd : node) (names : list string) :
  let directory := Pathlib.parse (ListDirectoryRequest.path req) in
  fs w (Pathlib.str directory) = Stat nd ->
  nd_listdir nd = inr names ->
  (forall n, In n names -> suffix_ok (Pathlib.child directory n) = true ->
             Os.stat_raises (fs w (Pathlib.str (Pathlib.child directory n)))
             = false) ->
  list_directory req w
  = (inr (ListDirectoryResult.mk (Pathlib.str directory)
            (map (entry_of w directory)
                 (filter (fun n => suffix_ok (Pathlib.child directory n))
                         names))), w).
Proof.
  intros directory Hfs Hls Hstat.
  unfold list_directory. fold directory. run_os.
  rewrite Hfs. cbn. rewrite Hfs, Hls. cbn.
  now rewrite (list_directory_files_run w directory names Hstat).
Qed.

(** A name that passes the suffix test is a proper path component. *)
Lemma has_doc_extension_keep_part (n : string) :
  has_doc_extension n -> Pathlib.keep_part n = true.
Proof.
  intros (stem & ext & -> & Hstem & Hin).
  destruct (doc_suffix_shape ext 0 0 Hin) as [_ Hlen].
  assert (Hl : (4 <= String.length (stem ++ ext))%nat).
  { rewrite strlen_append. unfold Py.strlen in Hlen.
    destruct stem; [congruence|]. cbn [String.length]. lia. }
  unfold Pathlib.keep_part.
  destruct (String.eqb_spec (stem ++ ext) EmptyString) as [E|_];
    [rewrite E in Hl; cbn in Hl; lia|].
  destruct (String.eqb_spec (stem ++ ext) ".") as [E|_];
    [rewrite E in Hl; cbn in Hl; lia|].
  reflexivity.
Qed.

(** X13: the [path] of an answer of [read_document_chunk] is in normal
    form, and it can stand for the requested path: the same request with
    the returned path in the place of the requested one gets the same
    answer. *)
Theorem returned_path_rereads (w w' : World)
        (req : ReadDocumentChunkRequest.t) (r : ChunkResult.t) :
  read_document_chunk req w = (inr r, w') ->
  Pathlib.str (Pathlib.parse (ChunkResult.path r)) = ChunkResult.path r
  /\ Pathlib.name (Pathlib.parse (ChunkResult.path r)) = ChunkResult.filename r
  /\ read_document_chunk
       (ReadDocumentChunkRequest.mk (ChunkResult.path r)
          (ReadDocumentChunkRequest.offset req)
          (ReadDocumentChunkRequest.chunk_size req)) w
     = (inr r, w).
Proof.
  intros Hrun.
  destruct (read_document_chunk_inv _ _ _ _ Hrun) as (nd & t & Hfs & Hrd & -> & Hno).
  rewrite (read_document_chunk_ok w req nd t Hfs Hrd Hno) in Hrun.
  injection Hrun as <-. cbn [ChunkResult.path ChunkResult.filename].
  pose proof (parse_str _ (normal_parse (ReadDocumentChunkRequest.path req)))
    as Hnf.
  rewrite Hnf. repeat split.
  rewrite (read_document_chunk_ok w
             (ReadDocumentChunkRequest.mk
                (Pathlib.str (Pathlib.parse (ReadDocumentChunkRequest.path req)))
                (ReadDocumentChunkRequest.offset req)
                (ReadDocumentChunkRequest.chunk_size req)) nd t);
    cbn [ReadDocumentChunkRequest.path ReadDocumentChunkRequest.offset
         ReadDocumentChunkRequest.chunk_size]; rewrite ?Hnf; auto.
Qed.

Lemma returned_path_rereads_witness :
  Pathlib.str (Pathlib.parse "/books/a.txt") = "/books/a.txt"
  /\ Pathlib.name (Pathlib.parse "/books/a.txt") = "a.txt"
  /\ read_document_chunk
       (ReadDocumentChunkRequest.mk "/books/a.txt" 5 4) books_world
     = (inr {| ChunkResult.path := "/books/a.txt";
               ChunkResult.filename := "a.txt";
               ChunkResult.offset := 5;
               ChunkResult.next_offset := Some 9;
               ChunkResult.chunk_size := 4;
               ChunkResult.total_length := 11;
               ChunkResult.progress := PercentOf 9 11;
               ChunkResult.eof := false;
               ChunkResult.content := text_of_string " wor" |}, books_world).
Proof.
  exact (returned_path_rereads books_world books_world
           (ReadDocumentChunkRequest.mk "/books//./a.txt" 5 4) _ eq_refl).
Defined.

(** X14: what [list_directory] returns can be handed to
    [read_document_chunk].  For a directory whose entry names hold no
    separator and in which the stat of no entry with a listed extension
    raises, every listed entry has a [path] in normal form whose last
    component is the entry's [name]; [is_dir] tells what the file system
    holds at that path; and when that path is a readable file,
    [read_document_chunk] on the entry's [path], with an offset and a
    [chunk_size] whose end index is not negative, answers with that very
    [path], the entry's [name] as [filename] and the length of the
    file. *)
Theorem listed_entry_can_be_read (w : World) (req : ListDirectoryRequest.t)
        (nd : node) (names : list string) :
  let directory := Pathlib.parse (ListDirectoryRequest.path req) in
  fs w (Pathlib.str directory) = Stat nd ->
  nd_listdir nd = inr names ->
  Forall no_slash names ->
  (forall n, In n names -> has_doc_extension n ->
             Os.stat_raises (fs w (Pathlib.str (Pathlib.child directory n)))
             = false) ->
  exists files,
    list_directory req w
    = (inr (ListDirectoryResult.mk (Pathlib.str directory) files), w)
    /\ forall e,
         In e files ->
         In (DirectoryEntry.name e) names
         /\ Pathlib.str (Pathlib.parse (DirectoryEntry.path e))
            = DirectoryEntry.path e
         /\ Pathlib.name (Pathlib.parse (DirectoryEntry.path e))
            = DirectoryEntry.name e
         /\ DirectoryEntry.is_dir e
            = match fs w (DirectoryEntry.path e) with
              | Stat nf => nd_is_dir nf
              | _ => false
              end
         /\ forall nf t offset chunk_size,
              fs w (DirectoryEntry.path e) = Stat nf ->
              nd_read_text nf = inr t ->
              0 <= Z.max 0 offset + chunk_size ->
              exists r,
                read_document_chunk
                  (ReadDocumentChunkRequest.mk (DirectoryEntry.path e)
                                               offset chunk_size) w
                = (inr r, w)
                /\ ChunkResult.path r = DirectoryEntry.path e
                /\ ChunkResult.filename r = DirectoryEntry.name e
                /\ ChunkResult.total_length r = Py.len t.
Proof.
  intros directory Hfs Hls Hnames Hstat.
  eexists. split.
  { apply (list_directory_ok w req nd names Hfs Hls).
    intros n Hn Hok. apply Hstat; [exact Hn|].
    now apply (suffix_ok_iff directory). }
  fold directory. intros e He.
  apply in_map_iff in He as (n & <- & Hn).
  apply filter_In in Hn as [Hn Hok].
  assert (Hnormal : normal (Pathlib.child directory n)).
  { apply normal_child.
    - apply normal_parse.
    - rewrite Forall_forall in Hnames. now apply Hnames.
    - apply has_doc_extension_keep_part. now apply (suffix_ok_iff directory). }
  pose proof (parse_str _ Hnormal) as Hparse.
  unfold entry_of. cbn [DirectoryEntry.name DirectoryEntry.path
                        DirectoryEntry.is_dir].
  rewrite Hparse, name_child. repeat split; auto.
  intros nf t offset chunk_size Hnf Hrd Hnn.
  eexists. split.
  - apply (read_document_chunk_inside w
             (ReadDocumentChunkRequest.mk
                (Pathlib.str (Pathlib.child directory n)) offset chunk_size)
             nf t); cbn [ReadDocumentChunkRequest.path]; rewrite ?Hparse; auto.
  - cbn. rewrite Hparse, name_child. auto.
Qed.

Lemma listed_entry_can_be_read_witness :
  exists files,
    list_directory (ListDirectoryRequest.mk "/books") books_world
    = (inr (ListDirectoryResult.mk "/books" files), books_world)
    /\ forall e,
         In e files ->
         In (DirectoryEntry.name e)
            ["a.txt"; "B.MD"; "notes.md"; "draft.docx"; ".txt"; "scan.Pdf";
             "README"; "empty.txt"]
         /\ Pathlib.str (Pathlib.parse (DirectoryEntry.path e))
            = DirectoryEntry.path e
         /\ Pathlib.name (Pathlib.parse (DirectoryEntry.path e))
            = DirectoryEntry.name e
         /\ DirectoryEntry.is_dir e
            = match books_fs (DirectoryEntry.path e) with
              | Stat nf => nd_is_dir nf
              | _ => false
              end
         /\ forall nf t offset chunk_size,
              books_fs (DirectoryEntry.path e) = Stat nf ->
              nd_read_text nf = inr t ->
              0 <= Z.max 0 offset + chunk_size ->
              exists r,
                read_document_chunk
                  (ReadDocumentChunkRequest.mk (DirectoryEntry.path e)
                                               offset chunk_size) books_world
                = (inr r, books_world)
                /\ ChunkResult.path r = DirectoryEntry.path e
                /\ ChunkResult.filename r = DirectoryEntry.name e
                /\ ChunkResult.total_length r = Py.len t.
Proof.
  apply (listed_entry_can_be_read books_world
           (ListDirectoryRequest.mk "/books")
           (directory_of "/books"
              ["a.txt"; "B.MD"; "notes.md"; "draft.docx"; ".txt";
               "scan.Pdf"; "README"; "empty.txt"])
           ["a.txt"; "B.MD"; "notes.md"; "draft.docx"; ".txt"; "scan.Pdf";
            "README"; "empty.txt"]);
    [reflexivity|reflexivity|repeat constructor|].
  intros n Hn _. cbn in Hn.
  repeat (destruct Hn as [<-|Hn]; [reflexivity|]). contradiction.
Defined.

(** ** The summaries table: repeated saves *)

Section Saves.

Import Sql.
Implicit Types (t : table) (r : SummaryRow.t) (k : string).

Lemma delete_by_id_idem k t : delete_by_id k (delete_by_id k t) = delete_by_id k t.
Proof. unfold delete_by_id. apply forallb_filter_id, forallb_filter. Qed.

Lemma delete_by_id_comm k1 k2 t :
  delete_by_id k1 (delete_by_id k2 t) = delete_by_id k2 (delete_by_id k1 t).
Proof.
  unfold delete_by_id. induction t as [|r t IH]; cbn; [reflexivity|].
  destruct (same_key k2 r) eqn:E2, (same_key k1 r) eqn:E1; cbn;
    rewrite ?E1, ?E2; cbn; now rewrite IH.
Qed.

Lemma delete_by_id_last k t r :
  delete_by_id k (t ++ [r])%list
  = (delete_by_id k t
     ++ if same_key k r then [] else [r])%list.
Proof.
  unfold delete_by_id. rewrite filter_app. cbn.
  now destruct (same_key k r).
Qed.

Lemma same_key_row_of (req : SaveSummaryRequest.t) :
  same_key (SaveSummaryRequest.document_id req) (row_of req) = true.
Proof. apply String.eqb_refl. Qed.

(** X16: saving the same request twice is the same as saving it once: the
    answer, the table and the order of its rows are those of a single
    save. *)
Theorem save_twice_is_save_once (w : World) t (req : SaveSummaryRequest.t) :
  summaries w = Some t ->
  (save_summary_to_db req ;;; save_summary_to_db req) w
  = save_summary_to_db req w.
Proof.
  intros Ht. unfold bind at 1.
  rewrite (save_summary_to_db_ok w t req Ht).
  rewrite (save_summary_to_db_ok
             (mkWorld (fs w)
                (Some (delete_by_id (SaveSummaryRequest.document_id req) t
                       ++ [row_of req])%list))
             _ req eq_refl).
  cbn [fs].
  rewrite delete_by_id_last, same_key_row_of, app_nil_r, delete_by_id_idem.
  reflexivity.
Qed.

Lemma save_twice_is_save_once_witness :
  (save_summary_to_db (SaveSummaryRequest.mk "d1" "a.txt" "s" "completed") ;;;
   save_summary_to_db (SaveSummaryRequest.mk "d1" "a.txt" "s" "completed"))
    books_world
  = save_summary_to_db (SaveSummaryRequest.mk "d1" "a.txt" "s" "completed")
      books_world.
Proof.
  exact (save_twice_is_save_once books_world []
           (SaveSummaryRequest.mk "d1" "a.txt" "s" "completed") eq_refl).
Defined.

(** X17: saves of two different ids commute: in either order both
    succeed, and the two tables hold the same rows (in the order of the
    writes, so as permutations of each other). *)
Theorem saves_of_distinct_ids_commute (w : World) t
        (req1 req2 : SaveSummaryRequest.t) :
  summaries w = Some t ->
  SaveSummaryRequest.document_id req1 <> SaveSummaryRequest.document_id req2 ->
  exists res1 res2 t12 t21,
    (save_summary_to_db req1 ;;; save_summary_to_db req2) w
    = (inr res2, mkWorld (fs w) (Some t12))
    /\ (save_summary_to_db req2 ;;; save_summary_to_db req1) w
       = (inr res1, mkWorld (fs w) (Some t21))
    /\ Permutation t12 t21.
Proof.
  intros Ht Hneq.
  pose (d1 := SaveSummaryRequest.document_id req1).
  pose (d2 := SaveSummaryRequest.document_id req2).
  assert (K12 : same_key d2 (row_of req1) = false).
  { apply String.eqb_neq. exact Hneq. }
  assert (K21 : same_key d1 (row_of req2) = false).
  { apply String.eqb_neq. intros E. apply Hneq. symmetry. exact E. }
  do 4 eexists. split; [|split].
  - unfold bind. rewrite (save_summary_to_db_ok w t req1 Ht).
    erewrite save_summary_to_db_ok by reflexivity.
    cbn [fs]. reflexivity.
  - unfold bind. rewrite (save_summary_to_db_ok w t req2 Ht).
    erewrite save_summary_to_db_ok by reflexivity.
    cbn [fs]. reflexivity.
  - fold d1 d2. rewrite !delete_by_id_last, K12, K21.
    rewrite (delete_by_id_comm d2 d1 t), <- !app_assoc.
    apply Permutation_app_head. cbn. apply perm_swap.
Qed.

Lemma saves_of_distinct_ids_commute_witness :
  exists res1 res2 t12 t21,
    (save_summary_to_db (SaveSummaryRequest.mk "d1" "a.txt" "s1" "completed") ;;;
     save_summary_to_db (SaveSummaryRequest.mk "d2" "B.MD" "s2" "failed"))
      books_world
    = (inr res2, mkWorld books_fs (Some t12))
    /\ (save_summary_to_db (SaveSummaryRequest.mk "d2" "B.MD" "s2" "failed") ;;;
        save_summary_to_db (SaveSummaryRequest.mk "d1" "a.txt" "s1" "completed"))
         books_world
       = (inr res1, mkWorld books_fs (Some t21))
    /\ Permutation t12 t21.
Proof.
  apply (saves_of_distinct_ids_commute books_world []
           (SaveSummaryRequest.mk "d1" "a.txt" "s1" "completed")
           (SaveSummaryRequest.mk "d2" "B.MD" "s2" "failed"));
    [reflexivity|discriminate].
Defined.

Lemma select_count k t :
  pk_unique t ->
  List.length (select_by_id k t)
  = if existsb (same_key k) t then 1%nat else 0%nat.
Proof.
  intros Hpk. pose proof (pk_unique_select k t Hpk) as Hle.
  destruct (existsb (same_key k) t) eqn:Hex.
  - apply existsb_exists in Hex as (r & Hin & Hr).
    assert (Hsel : In r (select_by_id k t)) by (apply filter_In; auto).
    destruct (select_by_id k t); [contradiction|]. cbn in *. lia.
  - destruct (select_by_id k t) as [|r l] eqn:Hsel; [reflexivity|].
    assert (Hin : In r (select_by_id k t)) by (rewrite Hsel; now left).
    apply filter_In in Hin as [Hin Hr].
    assert (existsb (same_key k) t = true)
      by (apply existsb_exists; eauto).
    congruence.
Qed.

(** X18: on a table that respects the primary key, a save adds one row
    when the [document_id] is new and keeps the number of rows when it is
    already there. *)
Theorem save_row_count (w : World) t (req : SaveSummaryRequest.t) :
  summaries w = Some t ->
  pk_unique t ->
  exists res t',
    save_summary_to_db req w = (inr res, mkWorld (fs w) (Some t'))
    /\ List.length t'
       = if existsb (same_key (SaveSummaryRequest.document_id req)) t
         then List.length t else S (List.length t).
Proof.
  intros Ht Hpk. do 2 eexists.
  split; [apply (save_summary_to_db_ok w t req Ht)|].
  set (k := SaveSummaryRequest.document_id req).
  rewrite length_app. cbn [List.length].
  pose proof (filter_length (same_key k) t) as Hsplit.
  fold (select_by_id k t) in Hsplit. fold (delete_by_id k t) in Hsplit.
  rewrite (select_count k t Hpk) in Hsplit.
  destruct (existsb (same_key k) t); lia.
Qed.

Lemma save_row_count_witness :
  exists res t',
    save_summary_to_db (SaveSummaryRequest.mk "d1" "a.txt" "again" "completed")
      (mkWorld books_fs
         (Some [SummaryRow.mk "d1" "a.txt" "first" "failed";
                SummaryRow.mk "d2" "B.MD" "other" "completed"]))
    = (inr res, mkWorld books_fs (Some t'))
    /\ List.length t' = 2%nat.
Proof.
  apply (save_row_count
           (mkWorld books_fs
              (Some [SummaryRow.mk "d1" "a.txt" "first" "failed";
                     SummaryRow.mk "d2" "B.MD" "other" "completed"]))
           [SummaryRow.mk "d1" "a.txt" "first" "failed";
            SummaryRow.mk "d2" "B.MD" "other" "completed"]
           (SaveSummaryRequest.mk "d1" "a.txt" "again" "completed") eq_refl).
  repeat constructor; cbn; intuition discriminate.
Defined.

End Saves.

(** ** The advertised schema and the request model *)

Lemma str_field_spec (k : string) (b : Schema.body) (s : string) :
  Schema.str_field k b = Some s <-> Schema.get k b = Some (Schema.JString s).
Proof.
  unfold Schema.str_field.
  destruct (Schema.get k b) as [[s'| |]|]; split; congruence.
Qed.

Lemma str_field_none (k : string) (b : Schema.body) :
  (forall s, Schema.get k b <> Some (Schema.JString s)) ->
  Schema.str_field k b = None.
Proof.
  intros H. destruct (Schema.str_field k b) as [s|] eqn:E; [|reflexivity].
  apply str_field_spec in E. now apply H in E.
Qed.

(** X19: the properties that the catalogue of [mcp_tools] lists as required
    for [save_summary_to_db] are the ones the request model enforces.  A
    body that gives a string for each of them reaches the handler, with
    those strings as the fields of the request; a body in which one of them
    is missing or is not a string is refused before the handler runs, and
    nothing is stored. *)
Theorem advertised_required_fields_enforced (b : Schema.body) (w : World) :
  In save_summary_to_db_tool mcp_tools
  /\ ((forall k, In k (input_required save_summary_to_db_tool) ->
                 exists s, Schema.get k b = Some (Schema.JString s)) ->
      exists req,
        Schema.validate_SaveSummaryRequest b = Some req
        /\ post_save_summary_to_db b w = save_summary_to_db req w
        /\ Schema.get "document_id" b
           = Some (Schema.JString (SaveSummaryRequest.document_id req))
        /\ Schema.get "filename" b
           = Some (Schema.JString (SaveSummaryRequest.filename req))
        /\ Schema.get "summary" b
           = Some (Schema.JString (SaveSummaryRequest.summary req))
        /\ Schema.get "status" b
           = Some (Schema.JString (SaveSummaryRequest.status req)))
  /\ ((exists k, In k (input_required save_summary_to_db_tool)
                 /\ forall s, Schema.get k b <> Some (Schema.JString s)) ->
      Schema.validate_SaveSummaryRequest b = None
      /\ post_save_summary_to_db b w = (inl RequestValidationError, w)).
Proof.
  split; [cbn; auto|]. split.
  - intros Hall.
    destruct (Hall "document_id") as [d Hd]; [cbn; auto|].
    destruct (Hall "filename") as [f Hf]; [cbn; auto|].
    destruct (Hall "summary") as [s Hs]; [cbn; auto|].
    destruct (Hall "status") as [st Hst]; [cbn; auto 6|].
    exists (SaveSummaryRequest.mk d f s st).
    assert (Hv : Schema.validate_SaveSummaryRequest b
                 = Some (SaveSummaryRequest.mk d f s st)).
    { unfold Schema.validate_SaveSummaryRequest.
      apply str_field_spec in Hd, Hf, Hs, Hst.
      now rewrite Hd, Hf, Hs, Hst. }
    unfold post_save_summary_to_db. rewrite Hv. cbn. auto 7.
  - intros (k & Hk & Hbad). apply str_field_none in Hbad.
    assert (Hv : Schema.validate_SaveSummaryRequest b = None).
    { unfold Schema.validate_SaveSummaryRequest.
      destruct Hk as [<-|[<-|[<-|[<-|[]]]]]; rewrite Hbad;
        repeat match goal with
               | |- context [match ?o with Some _ => _ | None => _ end] =>
                   destruct o
               end; reflexivity. }
    unfold post_save_summary_to_db. now rewrite Hv.
Qed.
